(** * actions-runner-controller: bootstrap, admission webhook and autoscaling

    A shallow embedding of
    - [main.go]: the computation of the GitHub API cache duration handed to
      the HorizontalRunnerAutoscaler reconciler;
    - [api/v1alpha1/runnerreplicaset_webhook.go]: the admission webhook of
      RunnerReplicaSet;
    - the autoscaling loop and the webhook receiver that
      [controllers/integration_test.go] drives.  Their Go sources are not
      among the files at hand, so they are modelled from the specification
      and checked against the scenarios of the integration test. *)

From Stdlib Require Import ZArith QArith Qround Lia Ascii.
From stdpp Require Import base option list gmap strings.

Local Open Scope string_scope.
Local Open Scope Z_scope.

(** ** Go's [int64] and [time.Duration] *)

Module Int64.

Definition min_int : Z := - 2 ^ 63.
Definition max_int : Z := 2 ^ 63 - 1.

Definition in_range (z : Z) : Prop := min_int <= z <= max_int.

(** Two's complement wrap-around of a mathematical integer. *)
Definition wrap (z : Z) : Z := (z + 2 ^ 63) mod 2 ^ 64 - 2 ^ 63.

Definition sub (a b : Z) : Z := wrap (a - b).
Definition mul (a b : Z) : Z := wrap (a * b).

End Int64.

(** ** main.go *)

Module Main.

(** [time.Duration] is an [int64] count of nanoseconds. *)
Definition Duration := Z.

Definition Nanosecond : Duration := 1.
Definition Second : Duration := 1000000000.
Definition Minute : Duration := 60 * Second.

(** Lines 314-320 of [main]: the value of [gitHubAPICacheDuration] after
    the two [if] statements, as a function of the parsed flags
    [github-api-cache-duration] and [sync-period]. *)
Definition gitHubAPICacheDuration (flag syncPeriod : Duration) : Duration :=
  let d := if flag =? 0
           then Int64.sub syncPeriod (Int64.mul 10 Second)
           else flag in
  if d <? 0 then 0 else d.

(** The reconciler that receives it (lines 335-342). *)
Record HorizontalRunnerAutoscalerReconciler := {
  CacheDuration : Duration;
  DefaultScaleDownDelay : Duration
}.

Definition horizontalRunnerAutoscaler
    (flag syncPeriod defaultScaleDownDelay : Duration) :
    HorizontalRunnerAutoscalerReconciler :=
  {| CacheDuration := gitHubAPICacheDuration flag syncPeriod;
     DefaultScaleDownDelay := defaultScaleDownDelay |}.

End Main.

(** ** k8s.io/apimachinery: field errors and the [Invalid] status error *)

Module Field.

(** [field.Path], built by [field.NewPath], printed with dots. *)
Definition Path := list string.

Definition NewPath (name : string) (moreNames : list string) : Path :=
  name :: moreNames.

Fixpoint String (p : Path) : string :=
  match p with
  | [] => ""
  | [n] => n
  | n :: rest => n +:+ "." +:+ String rest
  end.

Inductive ErrorType := ErrorTypeInvalid | ErrorTypeRequired | ErrorTypeForbidden.

(** [field.Error], with the rejected value as [V]. *)
Record Error (V : Type) := {
  Type_ : ErrorType;
  Field : string;
  BadValue : V;
  Detail : string
}.
Arguments Type_ {V} _.
Arguments Field {V} _.
Arguments BadValue {V} _.
Arguments Detail {V} _.

Definition Invalid {V : Type} (field : Path) (value : V) (detail : string) : Error V :=
  {| Type_ := ErrorTypeInvalid; Field := String field;
     BadValue := value; Detail := detail |}.

End Field.

Module Apierrors.

Inductive StatusReason := StatusReasonInvalid | StatusReasonOther.

Record GroupKind := { Group : string; Kind : string }.

(** [apierrors.StatusError] as [NewInvalid] fills it in: HTTP code 422,
    reason [Invalid], one cause per field error. *)
Record StatusError (V : Type) := {
  Code : Z;
  Reason : StatusReason;
  DetailsGroupKind : GroupKind;
  DetailsName : string;
  Causes : list (Field.Error V)
}.
Arguments Code {V} _.
Arguments Reason {V} _.
Arguments DetailsGroupKind {V} _.
Arguments DetailsName {V} _.
Arguments Causes {V} _.

Definition NewInvalid {V : Type} (qualifiedKind : GroupKind) (name : string)
    (errs : list (Field.Error V)) : StatusError V :=
  {| Code := 422; Reason := StatusReasonInvalid;
     DetailsGroupKind := qualifiedKind; DetailsName := name; Causes := errs |}.

End Apierrors.

(** ** api/v1alpha1 *)

Module V1alpha1.

(** *** The resource types

    The type declarations live in files that are not at hand.  The fields
    below are the ones [Validate] reads and the ones the integration test
    sets in its struct literals. *)

Record RunnerConfig := {
  Enterprise : string;
  Organization : string;
  Repository : string;
  Labels : list string;
  Group : string;
  Image : string
}.

(** A method call either returns or panics on a nil receiver. *)
Inductive result (A : Type) := Returns (a : A) | Panics.
Arguments Returns {A} a.
Arguments Panics {A}.

Section Resources.

(** The declaration of the work-volume claim template is missing; it is
    taken as a parameter. *)
Context {WorkVolumeClaimTemplate : Type}.

Record RunnerPodSpec := {
  Env : list (string * string);
  ServiceAccountName : string;
  WorkVolumeClaimTemplate_ : option WorkVolumeClaimTemplate
}.

Record RunnerSpec := {
  runnerConfig : RunnerConfig;
  runnerPodSpec : RunnerPodSpec
}.

Record RunnerTemplate := {
  TemplateLabels : gmap string string;
  TemplateSpec : RunnerSpec
}.

Record LabelSelector := { MatchLabels : gmap string string }.

Record RunnerReplicaSetSpec := {
  Replicas : option Z;
  Selector : option LabelSelector;
  Template : RunnerTemplate;
  EffectiveTime : option Z
}.

(** [GroupVersionKind] holds the group and kind that
    [r.GroupVersionKind().GroupKind()] yields. *)
Record RunnerReplicaSet := {
  Name : string;
  GroupVersionKind : Apierrors.GroupKind;
  Spec : RunnerReplicaSetSpec
}.

(** A selector selects the objects that carry each of its labels. *)
Definition Selects (sel : LabelSelector) (labels : gmap string string) : Prop :=
  MatchLabels sel ⊆ labels.

(** The values [Validate] hands to [field.Invalid]. *)
Inductive Value :=
| StringValue (s : string)
| ClaimTemplateValue (w : option WorkVolumeClaimTemplate).

Definition error := string.

(** The number of targets a runner configuration names. *)
Definition foundCount (c : RunnerConfig) : nat :=
  ((if decide (Enterprise c = "") then 0 else 1) +
   (if decide (Organization c = "") then 0 else 1) +
   (if decide (Repository c = "") then 0 else 1))%nat.

Variable targetErr : RunnerConfig -> error.

(** Modelled from the spec: [RunnerSpec.ValidateRepository] is declared
    in a file that is not at hand.  The spec (section 6) states its rule:
    "exactly one of {enterprise, organization, repository} is non-empty".
    The text of its error is not given and is the parameter [targetErr]. *)
Definition ValidateRepository (rs : RunnerSpec) : option error :=
  if decide (foundCount (runnerConfig rs) = 1%nat) then None
  else Some (targetErr (runnerConfig rs)).

(** The two other checks [Validate] calls are declared in the same missing
    file and the spec does not describe them: they are parameters. *)
Variable ValidateWorkVolumeClaimTemplate : RunnerSpec -> option error.
Variable ValidateIsServiceAccountNameSet : RunnerSpec -> option error.

(** *** runnerreplicaset_webhook.go *)

(** Go's [append] of one element. *)
Definition append {A : Type} (l : list A) (x : A) : list A := (l ++ [x])%list.

(** [Default] has an empty body. *)
Definition Default (r : option RunnerReplicaSet) : result (option RunnerReplicaSet) :=
  Returns r.

(** [Validate], lines 68-94: three checks of the runner template, each
    failure appended to [errList] as a [field.Invalid]. *)
Definition Validate (r : RunnerReplicaSet) : option (Apierrors.StatusError Value) :=
  let rs := TemplateSpec (Template (Spec r)) in
  let errList : list (Field.Error Value) := [] in
  let errList :=
    match ValidateRepository rs with
    | Some err =>
        append errList (Field.Invalid
          (Field.NewPath "spec" ["template"; "spec"; "repository"])
          (StringValue (Repository (runnerConfig rs))) err)
    | None => errList
    end in
  let errList :=
    match ValidateWorkVolumeClaimTemplate rs with
    | Some err =>
        append errList (Field.Invalid
          (Field.NewPath "spec" ["template"; "spec"; "workVolumeClaimTemplate"])
          (ClaimTemplateValue (WorkVolumeClaimTemplate_ (runnerPodSpec rs))) err)
    | None => errList
    end in
  let errList :=
    match ValidateIsServiceAccountNameSet rs with
    | Some err =>
        append errList (Field.Invalid
          (Field.NewPath "spec" ["template"; "spec"; "serviceAccountName"])
          (StringValue (ServiceAccountName (runnerPodSpec rs))) err)
    | None => errList
    end in
  if decide (0 < length errList)%nat
  then Some (Apierrors.NewInvalid (GroupVersionKind r) (Name r) errList)
  else None.

(** The receiver is a pointer: [ValidateCreate] and [ValidateUpdate] read
    [r.Name] for the log line and then call [Validate]. *)
Definition ValidateCreate (r : option RunnerReplicaSet) :
    result (option (Apierrors.StatusError Value)) :=
  match r with
  | Some r => Returns (Validate r)
  | None => Panics
  end.

Definition ValidateUpdate (r : option RunnerReplicaSet) (old : option RunnerReplicaSet) :
    result (option (Apierrors.StatusError Value)) :=
  match r with
  | Some r => Returns (Validate r)
  | None => Panics
  end.

(** [ValidateDelete] returns nil without touching the receiver. *)
Definition ValidateDelete (r : option RunnerReplicaSet) :
    result (option (Apierrors.StatusError Value)) :=
  Returns None.

(** The paths [Validate] names, printed. *)
Definition repositoryField : string := "spec.template.spec.repository".
Definition claimTemplateField : string := "spec.template.spec.workVolumeClaimTemplate".
Definition accountField : string := "spec.template.spec.serviceAccountName".

(** The field errors [Validate] gathers for a runner spec, as one
    concatenation. *)
Definition fieldErrors (rs : RunnerSpec) : list (Field.Error (Value)) :=
  (match ValidateRepository rs with
   | Some err => [Field.Invalid ["spec"; "template"; "spec"; "repository"]
                    (StringValue (Repository (runnerConfig rs))) err]
   | None => []
   end ++
   match ValidateWorkVolumeClaimTemplate rs with
   | Some err => [Field.Invalid ["spec"; "template"; "spec"; "workVolumeClaimTemplate"]
                    (ClaimTemplateValue (WorkVolumeClaimTemplate_ (runnerPodSpec rs))) err]
   | None => []
   end ++
   match ValidateIsServiceAccountNameSet rs with
   | Some err => [Field.Invalid ["spec"; "template"; "spec"; "serviceAccountName"]
                    (StringValue (ServiceAccountName (runnerPodSpec rs))) err]
   | None => []
   end)%list.

End Resources.

Arguments RunnerPodSpec : clear implicits.
Arguments RunnerSpec : clear implicits.
Arguments RunnerTemplate : clear implicits.
Arguments RunnerReplicaSetSpec : clear implicits.
Arguments RunnerReplicaSet : clear implicits.
Arguments Value : clear implicits.

End V1alpha1.

(** ** The HorizontalRunnerAutoscaler reconciler

    Modelled from the spec: the reconciler
    ([controllers.HorizontalRunnerAutoscalerReconciler]) is not among the
    files at hand; only its construction in [main] and the integration
    test that drives it are.  The data model follows section 3 of the
    spec and the algorithm section 4.4.  Instants and durations are
    nanoseconds, as [time.Duration] is. *)

Module Autoscaler.

(** *** Data model (spec, section 3) *)

Record CapacityReservation := {
  effectiveTime : Z;
  expirationTime : Z;
  replicas : Z
}.

Inductive EventMatcher :=
| PullRequest (types branches : list string)
| Push (branches : list string)
| CheckRun (types : list string) (status : string) (repositories : list string)
| WorkflowJob.

Record ScaleUpTrigger := {
  eventMatcher : EventMatcher;
  amount : Z;
  duration : Z
}.

Inductive MetricSpec :=
| TotalNumberOfQueuedAndInProgressWorkflowRuns (repositoryNames : list string)
| PercentageRunnersBusy (scaleUpThreshold scaleDownThreshold
                         scaleUpFactor scaleDownFactor : Q).

(** One occurrence of a scheduled override; a recurring override is
    listed occurrence by occurrence. *)
Record ScheduledOverride := {
  startTime : Z;
  endTime : Z;
  overrideMinReplicas : option Z;
  overrideMaxReplicas : option Z
}.

Record HRASpec := {
  targetRef : string;
  minReplicas : Z;
  maxReplicas : Z;
  scaleUpTriggers : list ScaleUpTrigger;
  metrics : list MetricSpec;
  scaleDownDelaySecondsAfterScaleUp : option Z;
  scheduledOverrides : list ScheduledOverride
}.

(** The target scope of a runner template. *)
Inductive Target :=
| Enterprise (name : string)
| Organization (name : string)
| Repository (name : string).

#[export] Instance Target_eq_dec : EqDecision Target.
Proof. solve_decision. Defined.

(** A cached Provider answer: the call it answers (target, status and the
    repository filter), the count, and when it expires. *)
Record CacheEntry := {
  cacheTarget : Target;
  cacheStatus : string;
  cacheRepository : option string;
  cacheValue : Z;
  cacheExpiration : Z
}.

Record HRAStatus := {
  desiredReplicas : option Z;
  lastSuccessfulScaleOutTime : option Z;
  capacityReservations : list CapacityReservation;
  cacheEntries : list CacheEntry
}.

Record HorizontalRunnerAutoscaler := {
  hraNamespace : string;
  hraName : string;
  hraSpec : HRASpec;
  hraStatus : HRAStatus
}.

(** *** The Provider (spec, section 6) *)

Record WorkflowRun := {
  runID : Z;
  runStatus : string;
  runRepository : string
}.

Record ProviderRunner := {
  runnerID : Z;
  runnerName : string;
  runnerStatus : string;
  busy : bool;
  runnerLabels : list string
}.

(** [None] is a failed call. *)
Record ProviderAPI := {
  ListWorkflowRuns : Target -> string -> option string -> option (list WorkflowRun);
  ListRunners : Target -> option (list ProviderRunner)
}.

(** *** Desired-replica computation (spec, section 4.4) *)

(** Modelled from the spec: the reconciler's [clamp] (section 4.4,
    "clamp(baseline + reservationSum, effectiveMin, effectiveMax)"); the
    upper bound is applied last. *)
Definition clamp (x lo hi : Z) : Z := Z.min hi (Z.max lo x).

(** Modelled from the spec: the reconciler's test of a reservation
    (section 3, "active reservations are those with
    effectiveTime <= now < expirationTime"). *)
Definition Active (now : Z) (r : CapacityReservation) : Prop :=
  effectiveTime r <= now < expirationTime r.

#[export] Instance Active_dec now r : Decision (Active now r).
Proof. unfold Active. apply _. Defined.

Definition sumReplicas (rs : list CapacityReservation) : Z :=
  foldr (fun r acc => replicas r + acc) 0 rs.

(** Modelled from the spec: the reconciler's [reservationSum] (section
    4.4, the sum of [replicas] over the active reservations). *)
Definition reservationSum (now : Z) (rs : list CapacityReservation) : Z :=
  sumReplicas (filter (Active now) rs).

(** Modelled from the spec: the reconciler's garbage collection (section
    4.4, "the HRA GCs reservations whose expirationTime <= now on every
    reconcile"). *)
Definition gcReservations (now : Z) (rs : list CapacityReservation) :
    list CapacityReservation :=
  filter (fun r => now < expirationTime r) rs.

Definition OverrideActive (now : Z) (o : ScheduledOverride) : Prop :=
  startTime o <= now < endTime o.

#[export] Instance OverrideActive_dec now o : Decision (OverrideActive now o).
Proof. unfold OverrideActive. apply _. Defined.

(** Modelled from the spec: the reconciler's choice among overrides
    (section 4.4, "at most one override is active at a time (precedence:
    earliest startTime)"). *)
Definition earliest (os : list ScheduledOverride) : option ScheduledOverride :=
  foldr (fun o acc =>
           match acc with
           | Some a => if decide (startTime o <= startTime a) then Some o else Some a
           | None => Some o
           end) None os.

Definition activeOverride (now : Z) (spec : HRASpec) : option ScheduledOverride :=
  earliest (filter (OverrideActive now) (scheduledOverrides spec)).

(** Modelled from the spec: the reconciler's bounds (section 4.4, "active
    override clamps (effectiveMin, effectiveMax)"): the override's bound
    where it sets one, the autoscaler's otherwise. *)
Definition effectiveMin (now : Z) (spec : HRASpec) : Z :=
  match activeOverride now spec with
  | Some o => default (minReplicas spec) (overrideMinReplicas o)
  | None => minReplicas spec
  end.

Definition effectiveMax (now : Z) (spec : HRASpec) : Z :=
  match activeOverride now spec with
  | Some o => default (maxReplicas spec) (overrideMaxReplicas o)
  | None => maxReplicas spec
  end.

(** Modelled from the spec: the reconciler's [baseline] (section 4.4,
    "baseline := max(minReplicas, metricReplicas)"). *)
Definition baseline (spec : HRASpec) (metricReplicas : Z) : Z :=
  Z.max (minReplicas spec) metricReplicas.

(** Modelled from the spec: the reconciler's [raw] (section 4.4, "raw :=
    clamp(baseline + reservationSum, effectiveMin, effectiveMax)"). *)
Definition raw (spec : HRASpec) (st : HRAStatus) (now metricReplicas : Z) : Z :=
  clamp (baseline spec metricReplicas + reservationSum now (capacityReservations st))
        (effectiveMin now spec) (effectiveMax now spec).

(** Modelled from the spec: the reconciler's delay, the autoscaler's
    [scaleDownDelaySecondsAfterScaleUp] in seconds, or the controller's
    [default-scale-down-delay] (section 6; [main] hands it over as
    [DefaultScaleDownDelay]). *)
Definition scaleDownDelay (defaultScaleDownDelay : Z) (spec : HRASpec) : Z :=
  match scaleDownDelaySecondsAfterScaleUp spec with
  | Some s => s * Main.Second
  | None => defaultScaleDownDelay
  end.

(** Modelled from the spec: the reconciler's hold condition (section 4.4,
    "raw < previousDesired AND now - lastSuccessfulScaleOutTime <
    scaleDownDelaySecondsAfterScaleUp").  It needs a previous count and a
    scale-out time on record. *)
Definition Held (delay : Z) (st : HRAStatus) (now rawDesired : Z) : Prop :=
  match desiredReplicas st, lastSuccessfulScaleOutTime st with
  | Some previousDesired, Some t => rawDesired < previousDesired /\ now - t < delay
  | _, _ => False
  end.

#[export] Instance Held_dec delay st now r : Decision (Held delay st now r).
Proof. unfold Held. destruct (desiredReplicas st), (lastSuccessfulScaleOutTime st); apply _. Defined.

Record Scaling := {
  decided : Z;
  scaleOutTime : option Z;
  requeueAfter : option Z
}.

(** Modelled from the spec: the reconciler's scale-down suppression
    (section 4.4): when held, "hold desiredReplicas := previousDesired and
    requeue after the remaining delay"; "else desiredReplicas := raw.  If
    desiredReplicas > previousDesired, set lastSuccessfulScaleOutTime :=
    now".  A first count, with none on record before, is taken as a
    scale-out: the integration test calls the creation of the autoscaler a
    scale-up and waits for the delay before it scales down (lines 336 and
    382). *)
Definition scaleDownSuppression (delay : Z) (st : HRAStatus) (now rawDesired : Z) : Scaling :=
  if decide (Held delay st now rawDesired) then
    {| decided := default rawDesired (desiredReplicas st);
       scaleOutTime := lastSuccessfulScaleOutTime st;
       requeueAfter := (fun t => delay - (now - t)) <$> lastSuccessfulScaleOutTime st |}
  else
    {| decided := rawDesired;
       scaleOutTime :=
         match desiredReplicas st with
         | Some previousDesired =>
             if decide (previousDesired < rawDesired) then Some now
             else lastSuccessfulScaleOutTime st
         | None => Some now
         end;
       requeueAfter := None |}.

(** *** Metrics *)

(** Modelled from the spec: the reconciler's cache (section 4.4, "results
    are cached per (target, status) pair with an entry expiry of
    CacheDuration; a cache hit avoids Provider calls"). *)
Definition CacheLive (now : Z) (t : Target) (status : string)
    (repo : option string) (e : CacheEntry) : Prop :=
  cacheTarget e = t /\ cacheStatus e = status /\ cacheRepository e = repo /\
  now < cacheExpiration e.

#[export] Instance CacheLive_dec now t status repo e :
  Decision (CacheLive now t status repo e).
Proof. unfold CacheLive. apply _. Defined.

Definition cacheLookup (now : Z) (t : Target) (status : string)
    (repo : option string) (cache : list CacheEntry) : option Z :=
  cacheValue <$> head (filter (CacheLive now t status repo) cache).

(** Modelled from the spec: the reconciler's count of the workflow runs
    of one status (section 4.4), from the cache when a live entry answers
    the call, from the Provider's [ListWorkflowRuns] otherwise; the answer
    is then cached for [cacheDuration]. *)
Definition countRuns (p : ProviderAPI) (cacheDuration now : Z) (t : Target)
    (repo : option string) (status : string) (cache : list CacheEntry) :
    option (Z * list CacheEntry) :=
  match cacheLookup now t status repo cache with
  | Some n => Some (n, cache)
  | None =>
      runs ← ListWorkflowRuns p t status repo;
      let n := Z.of_nat (length runs) in
      Some (n, (cache ++ [{| cacheTarget := t; cacheStatus := status;
                             cacheRepository := repo; cacheValue := n;
                             cacheExpiration := now + cacheDuration |}])%list)
  end.

Definition countedStatuses : list string := ["queued"; "in_progress"].

Fixpoint countCalls (p : ProviderAPI) (cacheDuration now : Z) (t : Target)
    (calls : list (option string * string)) (cache : list CacheEntry) :
    option (Z * list CacheEntry) :=
  match calls with
  | [] => Some (0, cache)
  | (repo, status) :: rest =>
      '(n, cache1) ← countRuns p cacheDuration now t repo status cache;
      '(m, cache2) ← countCalls p cacheDuration now t rest cache1;
      Some (n + m, cache2)
  end.

(** Modelled from the spec: the reconciler's Provider calls for the
    metric (section 4.4, "for each repository (or all repositories of an
    organization/enterprise target), list workflow runs in statuses queued
    and in_progress"). *)
Definition workflowRunCalls (repositoryNames : list string) :
    list (option string * string) :=
  let repos := match repositoryNames with
               | [] => [None]
               | _ => Some <$> repositoryNames
               end in
  repo ← repos; status ← countedStatuses; [(repo, status)].

(** Modelled from the spec: the reconciler's PercentageRunnersBusy metric
    (section 4.4, "busyFraction := busy / total"; at or above the scale-up
    threshold ceil(previousDesired x scaleUpFactor), at or below the
    scale-down threshold floor(previousDesired x scaleDownFactor),
    previousDesired otherwise).  With no runner the fraction is 0. *)
Definition busyFraction (rs : list ProviderRunner) : Q :=
  (inject_Z (Z.of_nat (length (filter (fun r => busy r = true) rs))) /
   inject_Z (Z.of_nat (length rs)))%Q.

Definition percentageRunnersBusy (up down upFactor downFactor : Q)
    (previousDesired : Z) (rs : list ProviderRunner) : Z :=
  let f := busyFraction rs in
  if Qle_bool up f then Qceiling (inject_Z previousDesired * upFactor)
  else if Qle_bool f down then Qfloor (inject_Z previousDesired * downFactor)
  else previousDesired.

(** Modelled from the spec: the reconciler's [metricReplicas] (section
    4.4).  "If no metrics configured, metricReplicas = minReplicas"; for
    TotalNumberOfQueuedAndInProgressWorkflowRuns "metricReplicas :=
    count"; PercentageRunnersBusy is "bound by [minReplicas,
    maxReplicas]", needs a previous count and suggests [minReplicas]
    without one.  The first configured metric decides (the spec does not
    say how several combine). *)
Definition metricReplicas (p : ProviderAPI) (cacheDuration now : Z) (t : Target)
    (spec : HRASpec) (st : HRAStatus) : option (Z * list CacheEntry) :=
  match metrics spec with
  | [] => Some (minReplicas spec, cacheEntries st)
  | TotalNumberOfQueuedAndInProgressWorkflowRuns repositoryNames :: _ =>
      countCalls p cacheDuration now t (workflowRunCalls repositoryNames)
                 (cacheEntries st)
  | PercentageRunnersBusy up down upFactor downFactor :: _ =>
      rs ← ListRunners p t;
      match desiredReplicas st with
      | Some previousDesired =>
          Some (clamp (percentageRunnersBusy up down upFactor downFactor
                         previousDesired rs)
                      (minReplicas spec) (maxReplicas spec),
                cacheEntries st)
      | None => Some (minReplicas spec, cacheEntries st)
      end
  end.

(** *** One reconcile *)

(** What one reconcile writes: the replica count patched into the target
    RunnerDeployment, then the autoscaler's own status. *)
Record Outcome := {
  targetReplicas : Z;
  newStatus : HRAStatus;
  requeue : option Z
}.

(** Modelled from the spec: the reconciler's [Reconcile] (section 4.4):
    the count is computed from the metric, the active reservations and the
    bounds, held or not, and written to the target and to the status; the
    expired reservations go.  [None] is a reconcile that fails on the
    Provider and writes nothing (section 7). *)
Definition reconcile (r : Main.HorizontalRunnerAutoscalerReconciler)
    (p : ProviderAPI) (t : Target) (spec : HRASpec) (st : HRAStatus) (now : Z) :
    option Outcome :=
  '(m, cache) ← metricReplicas p (Main.CacheDuration r) now t spec st;
  let s := scaleDownSuppression (scaleDownDelay (Main.DefaultScaleDownDelay r) spec)
                                st now (raw spec st now m) in
  Some {| targetReplicas := decided s;
          newStatus := {| desiredReplicas := Some (decided s);
                          lastSuccessfulScaleOutTime := scaleOutTime s;
                          capacityReservations :=
                            gcReservations now (capacityReservations st);
                          cacheEntries := cache |};
          requeue := requeueAfter s |}.

(** *** The life of a status *)

(** Modelled from the spec: the receiver's write to a status (section
    4.5): reservations appended, nothing else touched. *)
Definition addReservations (st : HRAStatus) (rs : list CapacityReservation) : HRAStatus :=
  {| desiredReplicas := desiredReplicas st;
     lastSuccessfulScaleOutTime := lastSuccessfulScaleOutTime st;
     capacityReservations := (capacityReservations st ++ rs)%list;
     cacheEntries := cacheEntries st |}.


(** Through the window after a scale-out at [t0] to [d], the status keeps
    a count of at least [d] and a scale-out time of at least [t0]. *)
Definition Kept (t0 d : Z) (st : HRAStatus) : Prop :=
  exists d' last, desiredReplicas st = Some d' /\ d <= d' /\
                  lastSuccessfulScaleOutTime st = Some last /\ t0 <= last.

(** What happens to the status of one autoscaler: a reconcile at some
    instant against some state of the Provider, or a write of the
    receiver. *)
Inductive Action :=
| Reconcile (now : Z) (p : ProviderAPI)
| Deliver (rs : list CapacityReservation).

Definition perform (r : Main.HorizontalRunnerAutoscalerReconciler) (t : Target)
    (spec : HRASpec) (st : HRAStatus) (a : Action) : HRAStatus :=
  match a with
  | Reconcile now p =>
      match reconcile r p t spec st now with
      | Some o => newStatus o
      | None => st
      end
  | Deliver rs => addReservations st rs
  end.

Definition run (r : Main.HorizontalRunnerAutoscalerReconciler) (t : Target)
    (spec : HRASpec) (st : HRAStatus) (actions : list Action) : HRAStatus :=
  foldl (perform r t spec) st actions.

End Autoscaler.

(** ** The RunnerDeployment seen by the autoscaler

    Modelled from the spec: the RunnerDeployment reconciler is not among
    the files at hand.  Section 4.3 makes the replica field the autoscaler
    patches the source of truth, and the default rollout policy scales the
    active RunnerReplicaSet to that count. *)

Module Deployment.

Section Deployment.
Context {W : Type}.

Record RunnerDeployment := {
  rdNamespace : string;
  rdName : string;
  rdReplicas : Z;
  rdSelector : option V1alpha1.LabelSelector;
  rdTemplate : V1alpha1.RunnerTemplate W
}.

Definition runnerConfig (rd : RunnerDeployment) : V1alpha1.RunnerConfig :=
  V1alpha1.runnerConfig (V1alpha1.TemplateSpec (rdTemplate rd)).

(** Modelled from the spec: the target scope of the runners of a
    deployment (section 3, "target scope (Enterprise | Organization |
    Repository with an associated name)"), read off the configuration the
    test fills in. *)
Definition targetOf (c : V1alpha1.RunnerConfig) : option Autoscaler.Target :=
  if decide (V1alpha1.Enterprise c <> "") then Some (Autoscaler.Enterprise (V1alpha1.Enterprise c))
  else if decide (V1alpha1.Organization c <> "") then Some (Autoscaler.Organization (V1alpha1.Organization c))
  else if decide (V1alpha1.Repository c <> "") then Some (Autoscaler.Repository (V1alpha1.Repository c))
  else None.

(** Modelled from the spec: the autoscaler's write to its target (section
    4.4, "the HRA patches the target RunnerDeployment's replica field"). *)
Definition patchReplicas (rd : RunnerDeployment) (o : Autoscaler.Outcome) : RunnerDeployment :=
  {| rdNamespace := rdNamespace rd; rdName := rdName rd;
     rdReplicas := Autoscaler.targetReplicas o;
     rdSelector := rdSelector rd; rdTemplate := rdTemplate rd |}.

(** Modelled from the spec: the active RunnerReplicaSet the deployment
    reconciler keeps (section 4.3: the patched count is the source of
    truth and the default policy scales the new set to it). *)
Definition activeReplicaSet (rd : RunnerDeployment) (now : Z) : V1alpha1.RunnerReplicaSetSpec W :=
  {| V1alpha1.Replicas := Some (rdReplicas rd);
     V1alpha1.Selector := rdSelector rd;
     V1alpha1.Template := rdTemplate rd;
     V1alpha1.EffectiveTime := Some now |}.

(** Modelled from the spec: one tick of the autoscaler on its target
    (section 4.4, write strategy): the deployment patched and the status
    written, or nothing when the Provider fails. *)
Definition autoscale (r : Main.HorizontalRunnerAutoscalerReconciler)
    (p : Autoscaler.ProviderAPI) (rd : RunnerDeployment)
    (hra : Autoscaler.HorizontalRunnerAutoscaler) (now : Z) :
    option (RunnerDeployment * Autoscaler.HorizontalRunnerAutoscaler) :=
  t ← targetOf (runnerConfig rd);
  o ← Autoscaler.reconcile r p t (Autoscaler.hraSpec hra) (Autoscaler.hraStatus hra) now;
  Some (patchReplicas rd o,
        {| Autoscaler.hraNamespace := Autoscaler.hraNamespace hra;
           Autoscaler.hraName := Autoscaler.hraName hra;
           Autoscaler.hraSpec := Autoscaler.hraSpec hra;
           Autoscaler.hraStatus := Autoscaler.newStatus o |}).

End Deployment.

Arguments RunnerDeployment : clear implicits.

End Deployment.

(** ** The webhook receiver

    Modelled from the spec: the receiver
    ([controllers.HorizontalRunnerAutoscalerGitHubWebhook]) is not among
    the files at hand; the integration test posts events to it.  The
    model follows section 4.5 of the spec. *)

Module Receiver.

Inductive EventType := pull_request | push | check_run | workflow_job.

#[export] Instance EventType_eq_dec : EqDecision EventType.
Proof. solve_decision. Defined.

Inductive TargetKind := OrganizationKind | UserKind.

#[export] Instance TargetKind_eq_dec : EqDecision TargetKind.
Proof. solve_decision. Defined.

(** The fields derived from a delivery's payload. *)
Record Event := {
  targetKind : TargetKind;
  targetName : string;
  repository : string;
  refBranch : string;
  eventType : EventType;
  action : string;
  status : string;
  labels : list string
}.

(** A request: the outcome of the HMAC check of its body, the delivery ID
    of its header, and its payload if it parses. *)
Record Delivery := {
  signatureValid : bool;
  deliveryID : string;
  payload : option Event
}.

Section Receiver.
Context {W : Type}.

(** The spec gives no rule for how the labels of a workflow job are held
    against the labels of the runner template; the rule is a parameter,
    from the job's labels and the template's to a verdict. *)
Variable jobLabelsAccepted : list string -> list string -> bool.

(** Modelled from the spec: the receiver's trigger matching (section 4.5,
    "matches are ANDed within a trigger (types contains action AND
    branches contains refBranch AND status == status AND repositories is
    empty OR contains repository)"), one case per variant of the matcher. *)
Definition Matches (templateLabels : list string)
    (m : Autoscaler.EventMatcher) (e : Event) : Prop :=
  match m with
  | Autoscaler.PullRequest types branches =>
      eventType e = pull_request /\ action e ∈ types /\ refBranch e ∈ branches
  | Autoscaler.Push branches =>
      eventType e = push /\ refBranch e ∈ branches
  | Autoscaler.CheckRun types st repositories =>
      eventType e = check_run /\ action e ∈ types /\ status e = st /\
      (repositories = [] \/ repository e ∈ repositories)
  | Autoscaler.WorkflowJob =>
      eventType e = workflow_job /\
      jobLabelsAccepted (labels e) templateLabels = true
  end.

#[export] Instance Matches_dec tl m e : Decision (Matches tl m e).
Proof. unfold Matches. destruct m; apply _. Defined.

(** Modelled from the spec: the reservation of a trigger (section 4.5,
    "CapacityReservation{effectiveTime: now, expirationTime: now +
    trigger.duration, replicas: trigger.amount}"). *)
Definition reservation (now : Z) (t : Autoscaler.ScaleUpTrigger) :
    Autoscaler.CapacityReservation :=
  {| Autoscaler.effectiveTime := now;
     Autoscaler.expirationTime := now + Autoscaler.duration t;
     Autoscaler.replicas := Autoscaler.amount t |}.

(** Modelled from the spec: the receiver's loop over the triggers of an
    autoscaler (section 4.5, "for each trigger ... on match, append
    exactly one reservation"): one reservation for each trigger the event
    matches. *)
Definition reservationsFor (now : Z) (templateLabels : list string)
    (triggers : list Autoscaler.ScaleUpTrigger) (e : Event) :
    list Autoscaler.CapacityReservation :=
  reservation now <$>
    filter (fun t => Matches templateLabels (Autoscaler.eventMatcher t) e) triggers.

(** Modelled from the spec: whether the runners of a deployment serve the
    repository of an event (section 4.5, the derived targetKind,
    targetName and repository).  An event names an owner and a repository,
    never an enterprise. *)
Definition Serves (c : V1alpha1.RunnerConfig) (e : Event) : Prop :=
  match Deployment.targetOf c with
  | Some (Autoscaler.Repository full) => full = targetName e +:+ "/" +:+ repository e
  | Some (Autoscaler.Organization o) => targetKind e = OrganizationKind /\ o = targetName e
  | Some (Autoscaler.Enterprise _) => False
  | None => False
  end.

#[export] Instance Serves_dec c e : Decision (Serves c e).
Proof.
  unfold Serves. destruct (Deployment.targetOf c) as [[]|]; apply _.
Defined.

(** The cluster objects the receiver reads and writes, by name. *)
Record Store := {
  deployments : gmap string (Deployment.RunnerDeployment W);
  autoscalers : gmap string Autoscaler.HorizontalRunnerAutoscaler
}.

Record Config := {
  watchNamespace : string;
  ringSize : nat
}.

Record State := {
  store : Store;
  recentDeliveries : list string
}.

(** Modelled from the spec: the autoscalers in scope (section 4.5; section
    6, "watch-namespace (empty = all)"). *)
Definition InScope (cfg : Config) (h : Autoscaler.HorizontalRunnerAutoscaler) : Prop :=
  watchNamespace cfg = "" \/ Autoscaler.hraNamespace h = watchNamespace cfg.

#[export] Instance InScope_dec cfg h : Decision (InScope cfg h).
Proof. unfold InScope. apply _. Defined.

Definition appendReservations (h : Autoscaler.HorizontalRunnerAutoscaler)
    (rs : list Autoscaler.CapacityReservation) : Autoscaler.HorizontalRunnerAutoscaler :=
  {| Autoscaler.hraNamespace := Autoscaler.hraNamespace h;
     Autoscaler.hraName := Autoscaler.hraName h;
     Autoscaler.hraSpec := Autoscaler.hraSpec h;
     Autoscaler.hraStatus := Autoscaler.addReservations (Autoscaler.hraStatus h) rs |}.

(** Modelled from the spec: the reservations an event adds to one
    autoscaler (section 4.5): those of its matching triggers when it is in
    scope and its target serves the event, none otherwise. *)
Definition triggered (cfg : Config) (s : Store) (now : Z) (e : Event)
    (h : Autoscaler.HorizontalRunnerAutoscaler) : list Autoscaler.CapacityReservation :=
  match deployments s !! Autoscaler.targetRef (Autoscaler.hraSpec h) with
  | Some rd =>
      if decide (InScope cfg h /\ Serves (Deployment.runnerConfig rd) e)
      then reservationsFor now (V1alpha1.Labels (Deployment.runnerConfig rd))
                           (Autoscaler.scaleUpTriggers (Autoscaler.hraSpec h)) e
      else []
  | None => []
  end.

(** Modelled from the spec: the receiver's pass over all autoscalers
    (section 4.5, "for each HRA"). *)
Definition scaleUp (cfg : Config) (s : Store) (now : Z) (e : Event) : Store :=
  {| deployments := deployments s;
     autoscalers := (fun h => appendReservations h (triggered cfg s now e h))
                      <$> autoscalers s |}.

(** Modelled from the spec: the receiver's ring of recent delivery IDs
    (section 4.5, "a bounded-size ring"), newest first, cut to its size. *)
Definition remember (cfg : Config) (id : string) (ring : list string) : list string :=
  take (ringSize cfg) (id :: ring).

(** Modelled from the spec: the receiver's [Handle] (section 4.5): 401 on
    a bad signature "without further processing", 400 on a malformed
    payload, 200 otherwise; a repeated delivery changes nothing.  Writes
    to the store are taken to succeed (no 500). *)
Definition Handle (cfg : Config) (s : State) (now : Z) (d : Delivery) : Z * State :=
  if negb (signatureValid d) then (401, s)
  else match payload d with
       | None => (400, s)
       | Some e =>
           if decide (deliveryID d ∈ recentDeliveries s) then (200, s)
           else (200, {| store := scaleUp cfg (store s) now e;
                         recentDeliveries := remember cfg (deliveryID d) (recentDeliveries s) |})
       end.

End Receiver.

Arguments Store : clear implicits.
Arguments State : clear implicits.

End Receiver.

(** ** controllers/integration_test.go: fixtures *)

Module Integration.

(** The test never sets a work-volume claim template. *)
Definition NoClaimTemplate := Empty_set.

Definition run (st : string) : Autoscaler.WorkflowRun :=
  {| Autoscaler.runID := 0; Autoscaler.runStatus := st; Autoscaler.runRepository := "" |}.

(** Lines 40-46, as the lists the JSON bodies decode to. *)
Definition workflowRunsFor3Replicas : list Autoscaler.WorkflowRun :=
  [run "queued"; run "queued"; run "in_progress"; run "in_progress"; run "completed"].
Definition workflowRunsFor3Replicas_queued : list Autoscaler.WorkflowRun :=
  [run "queued"; run "queued"].
Definition workflowRunsFor3Replicas_in_progress : list Autoscaler.WorkflowRun :=
  [run "in_progress"].
Definition workflowRunsFor1Replicas : list Autoscaler.WorkflowRun :=
  [run "queued"; run "completed"; run "completed"; run "completed"; run "completed"].
Definition workflowRunsFor1Replicas_queued : list Autoscaler.WorkflowRun :=
  [run "queued"].
Definition workflowRunsFor1Replicas_in_progress : list Autoscaler.WorkflowRun := [].

(** [fake.Handler] as the test fills it in (lines 81-88): a body, and a
    body for each status asked for. *)
Record Handler := {
  Status : Z;
  Body : list Autoscaler.WorkflowRun;
  Statuses : gmap string (list Autoscaler.WorkflowRun)
}.

Definition ListRepositoryWorkflowRuns : Handler :=
  {| Status := 200;
     Body := workflowRunsFor3Replicas;
     Statuses := {[ "queued" := workflowRunsFor3Replicas_queued;
                    "in_progress" := workflowRunsFor3Replicas_in_progress ]} |}.

(** Lines 384-386 and 835-837: the responses after the test swaps them. *)
Definition ListRepositoryWorkflowRuns_scaledDown : Handler :=
  {| Status := 200;
     Body := workflowRunsFor1Replicas;
     Statuses := {[ "queued" := workflowRunsFor1Replicas_queued;
                    "in_progress" := workflowRunsFor1Replicas_in_progress ]} |}.

(** Modelled from the spec: the dispatch of the fake Provider is in the
    [fake] package, which is not at hand.  The Provider answers
    [ListWorkflowRuns(target, status, ...)] (section 6); the test gives
    the handler one body per status (lines 84-87) and its comment at line
    464 names these as the responses in use: a request that asks for a
    status gets that status's body, any other request the plain body. *)
Definition serve (h : Handler) (status : string) : option (list Autoscaler.WorkflowRun) :=
  if decide (Status h = 200)
  then Some (default (Body h) (Statuses h !! status))
  else None.

Definition fakeProvider (h : Handler) : Autoscaler.ProviderAPI :=
  {| Autoscaler.ListWorkflowRuns := fun _ status _ => serve h status;
     Autoscaler.ListRunners := fun _ => Some [] |}.

(** Lines 139-147: the reconciler under test. *)
Definition autoscalerController : Main.HorizontalRunnerAutoscalerReconciler :=
  {| Main.CacheDuration := 1 * Main.Second;
     Main.DefaultScaleDownDelay := 0 |}.

Definition name : string := "example-runnerdeploy".
Definition ns : string := "testns".

Definition template (c : V1alpha1.RunnerConfig) : V1alpha1.RunnerTemplate NoClaimTemplate :=
  {| V1alpha1.TemplateLabels := {[ "foo" := "bar" ]};
     V1alpha1.TemplateSpec :=
       {| V1alpha1.runnerConfig := c;
          V1alpha1.runnerPodSpec :=
            {| V1alpha1.Env := [("FOO", "FOOVALUE")];
               V1alpha1.ServiceAccountName := "";
               V1alpha1.WorkVolumeClaimTemplate_ := None |} |} |}.

Definition runnerDeployment (replicas : Z) (c : V1alpha1.RunnerConfig) :
    Deployment.RunnerDeployment NoClaimTemplate :=
  {| Deployment.rdNamespace := ns; Deployment.rdName := name;
     Deployment.rdReplicas := replicas;
     Deployment.rdSelector := Some {| V1alpha1.MatchLabels := {[ "foo" := "bar" ]} |};
     Deployment.rdTemplate := template c |}.

Definition organizationRunners : V1alpha1.RunnerConfig :=
  {| V1alpha1.Enterprise := ""; V1alpha1.Organization := "test";
     V1alpha1.Repository := ""; V1alpha1.Labels := [];
     V1alpha1.Group := "baz"; V1alpha1.Image := "bar" |}.

Definition repositoryRunners (labels : list string) : V1alpha1.RunnerConfig :=
  {| V1alpha1.Enterprise := ""; V1alpha1.Organization := "";
     V1alpha1.Repository := "test/valid"; V1alpha1.Labels := labels;
     V1alpha1.Group := "baz"; V1alpha1.Image := "bar" |}.

Definition freshStatus : Autoscaler.HRAStatus :=
  {| Autoscaler.desiredReplicas := None;
     Autoscaler.lastSuccessfulScaleOutTime := None;
     Autoscaler.capacityReservations := [];
     Autoscaler.cacheEntries := [] |}.

(** The autoscalers of the tests: all have a scale-down delay of one
    second and one trigger of amount 1 lasting a minute. *)
Definition horizontalRunnerAutoscaler (minReplicas maxReplicas : Z)
    (metrics : list Autoscaler.MetricSpec) (m : Autoscaler.EventMatcher) :
    Autoscaler.HorizontalRunnerAutoscaler :=
  {| Autoscaler.hraNamespace := ns; Autoscaler.hraName := name;
     Autoscaler.hraSpec :=
       {| Autoscaler.targetRef := name;
          Autoscaler.minReplicas := minReplicas;
          Autoscaler.maxReplicas := maxReplicas;
          Autoscaler.scaleUpTriggers :=
            [{| Autoscaler.eventMatcher := m; Autoscaler.amount := 1;
                Autoscaler.duration := Main.Minute |}];
          Autoscaler.metrics := metrics;
          Autoscaler.scaleDownDelaySecondsAfterScaleUp := Some 1;
          Autoscaler.scheduledOverrides := [] |};
     Autoscaler.hraStatus := freshStatus |}.

Definition queuedAndInProgress : list Autoscaler.MetricSpec :=
  [Autoscaler.TotalNumberOfQueuedAndInProgressWorkflowRuns []].

Definition pullRequestTrigger : Autoscaler.EventMatcher :=
  Autoscaler.PullRequest ["created"] ["main"].

(** Lines 487-491. *)
Definition checkRunTrigger : Autoscaler.EventMatcher :=
  Autoscaler.CheckRun ["created"] "pending" ["valid"; "foo"; "bar"].

(** Lines 701-704 (no repositories). *)
Definition checkRunTriggerAnyRepository : Autoscaler.EventMatcher :=
  Autoscaler.CheckRun ["created"] "pending" [].

(** The events the [Send...Event] helpers post (lines 1373-1482). *)
Definition SendOrgPullRequestEvent (org repo branch action : string) : Receiver.Event :=
  {| Receiver.targetKind := Receiver.OrganizationKind; Receiver.targetName := org;
     Receiver.repository := repo; Receiver.refBranch := branch;
     Receiver.eventType := Receiver.pull_request; Receiver.action := action;
     Receiver.status := ""; Receiver.labels := [] |}.

Definition SendOrgCheckRunEvent (org repo status action : string) : Receiver.Event :=
  {| Receiver.targetKind := Receiver.OrganizationKind; Receiver.targetName := org;
     Receiver.repository := repo; Receiver.refBranch := "";
     Receiver.eventType := Receiver.check_run; Receiver.action := action;
     Receiver.status := status; Receiver.labels := [] |}.

Definition SendWorkflowJobEvent (org repo statusAndAction : string)
    (labels : list string) : Receiver.Event :=
  {| Receiver.targetKind := Receiver.OrganizationKind; Receiver.targetName := org;
     Receiver.repository := repo; Receiver.refBranch := "";
     Receiver.eventType := Receiver.workflow_job; Receiver.action := statusAndAction;
     Receiver.status := statusAndAction; Receiver.labels := labels |}.

Definition SendUserPullRequestEvent (owner repo branch action : string) : Receiver.Event :=
  {| Receiver.targetKind := Receiver.UserKind; Receiver.targetName := owner;
     Receiver.repository := repo; Receiver.refBranch := branch;
     Receiver.eventType := Receiver.pull_request; Receiver.action := action;
     Receiver.status := ""; Receiver.labels := [] |}.

Definition SendUserCheckRunEvent (owner repo status action : string) : Receiver.Event :=
  {| Receiver.targetKind := Receiver.UserKind; Receiver.targetName := owner;
     Receiver.repository := repo; Receiver.refBranch := "";
     Receiver.eventType := Receiver.check_run; Receiver.action := action;
     Receiver.status := status; Receiver.labels := [] |}.

(** A signed, well-formed request carrying an event. *)
Definition delivery (id : string) (e : Receiver.Event) : Receiver.Delivery :=
  {| Receiver.signatureValid := true; Receiver.deliveryID := id;
     Receiver.payload := Some e |}.

(** Lines 151-158: the receiver watches the test's namespace.  The test
    sets no size for the ring; any size does for deliveries that differ. *)
Definition autoscalerWebhook : Receiver.Config :=
  {| Receiver.watchNamespace := ns; Receiver.ringSize := 16 |}.

Definition cluster (rd : Deployment.RunnerDeployment NoClaimTemplate)
    (hra : Autoscaler.HorizontalRunnerAutoscaler) : Receiver.State NoClaimTemplate :=
  {| Receiver.store := {| Receiver.deployments := {[ name := rd ]};
                          Receiver.autoscalers := {[ name := hra ]} |};
     Receiver.recentDeliveries := [] |}.

(** The autoscaler and the deployment reconciler run once on the cluster;
    a reconcile that fails leaves it as it is. *)
Definition reconcileCluster (p : Autoscaler.ProviderAPI)
    (s : Receiver.State NoClaimTemplate) (now : Z) : Receiver.State NoClaimTemplate :=
  let st := Receiver.store s in
  match rd ← Receiver.deployments st !! name;
        hra ← Receiver.autoscalers st !! name;
        Deployment.autoscale autoscalerController p rd hra now with
  | Some (rd', hra') =>
      {| Receiver.store :=
           {| Receiver.deployments := <[name := rd']> (Receiver.deployments st);
              Receiver.autoscalers := <[name := hra']> (Receiver.autoscalers st) |};
         Receiver.recentDeliveries := Receiver.recentDeliveries s |}
  | None => s
  end.

(** What [ExpectRunnerSetsManagedReplicasCountEventuallyEquals] reads. *)
Definition managedReplicas (s : Receiver.State NoClaimTemplate) (now : Z) : option Z :=
  rd ← Receiver.deployments (Receiver.store s) !! name;
  V1alpha1.Replicas (Deployment.activeReplicaSet rd now).


Definition reservationCount (s : Receiver.State NoClaimTemplate) : option nat :=
  hra ← Receiver.autoscalers (Receiver.store s) !! name;
  Some (length (Autoscaler.capacityReservations (Autoscaler.hraStatus hra))).

End Integration.

(** ** Sample RunnerReplicaSets *)

Module Samples.

Definition groupKind : Apierrors.GroupKind :=
  {| Apierrors.Group := "actions.summerwind.dev"; Apierrors.Kind := "RunnerReplicaSet" |}.

(** Organization runners, a negative replica count, and a selector that
    asks for a label value the template does not carry. *)
Definition negativeReplicas : V1alpha1.RunnerReplicaSet Integration.NoClaimTemplate :=
  {| V1alpha1.Name := "example-runnerreplicaset";
     V1alpha1.GroupVersionKind := groupKind;
     V1alpha1.Spec :=
       {| V1alpha1.Replicas := Some (-1);
          V1alpha1.Selector := Some {| V1alpha1.MatchLabels := {[ "foo" := "baz" ]} |};
          V1alpha1.Template := Integration.template Integration.organizationRunners;
          V1alpha1.EffectiveTime := None |} |}.

Definition noTargetRunners : V1alpha1.RunnerConfig :=
  {| V1alpha1.Enterprise := ""; V1alpha1.Organization := "";
     V1alpha1.Repository := ""; V1alpha1.Labels := [];
     V1alpha1.Group := ""; V1alpha1.Image := "bar" |}.

(** Runners with neither enterprise, organization nor repository. *)
Definition noTarget : V1alpha1.RunnerReplicaSet Integration.NoClaimTemplate :=
  {| V1alpha1.Name := "example-runnerreplicaset";
     V1alpha1.GroupVersionKind := groupKind;
     V1alpha1.Spec :=
       {| V1alpha1.Replicas := Some 1;
          V1alpha1.Selector := Some {| V1alpha1.MatchLabels := {[ "foo" := "bar" ]} |};
          V1alpha1.Template := Integration.template noTargetRunners;
          V1alpha1.EffectiveTime := None |} |}.

(** Checks that accept every runner spec. *)
Definition accept {A : Type} : A -> option V1alpha1.error := fun _ => None.
Definition message {A : Type} : A -> V1alpha1.error := fun _ => "invalid".



Definition testTarget : Autoscaler.Target := Autoscaler.Repository "test/valid".


(** A reconciler started with no cache duration flag and a sync period of
    five seconds: its cache duration is 0. *)
Definition uncached : Main.HorizontalRunnerAutoscalerReconciler :=
  Main.horizontalRunnerAutoscaler 0 (5 * Main.Second) 0.

Definition pullRequestSpec : Autoscaler.HRASpec :=
  Autoscaler.hraSpec
    (Integration.horizontalRunnerAutoscaler 1 3 Integration.queuedAndInProgress
       Integration.pullRequestTrigger).

(** A status with one replica on record, and one with three replicas on
    record since a scale-out at one second. *)
Definition oneReplica : Autoscaler.HRAStatus :=
  {| Autoscaler.desiredReplicas := Some 1;
     Autoscaler.lastSuccessfulScaleOutTime := None;
     Autoscaler.capacityReservations := [];
     Autoscaler.cacheEntries := [] |}.

Definition threeReplicas : Autoscaler.HRAStatus :=
  {| Autoscaler.desiredReplicas := Some 3;
     Autoscaler.lastSuccessfulScaleOutTime := Some (1 * Main.Second);
     Autoscaler.capacityReservations := [];
     Autoscaler.cacheEntries := [] |}.


(** A label rule for scenarios without workflow jobs. *)
Definition anyLabels : list string -> list string -> bool := fun _ _ => true.

Definition pullRequest : Receiver.Event :=
  Integration.SendOrgPullRequestEvent "test" "valid" "main" "created".







(** The check_run test (lines 419-538) after the first reconcile, and the
    same autoscaler over organization runners. *)
Definition provider3 : Autoscaler.ProviderAPI :=
  Integration.fakeProvider Integration.ListRepositoryWorkflowRuns.

Definition checkRunCluster : Receiver.State Integration.NoClaimTemplate :=
  Integration.reconcileCluster provider3
    (Integration.cluster
       (Integration.runnerDeployment 1 (Integration.repositoryRunners []))
       (Integration.horizontalRunnerAutoscaler 1 5 Integration.queuedAndInProgress
          Integration.checkRunTrigger))
    0.

Definition checkRunOrganizationCluster : Receiver.State Integration.NoClaimTemplate :=
  Integration.reconcileCluster provider3
    (Integration.cluster
       (Integration.runnerDeployment 1 Integration.organizationRunners)
       (Integration.horizontalRunnerAutoscaler 1 5 Integration.queuedAndInProgress
          Integration.checkRunTrigger))
    0.

Definition checkRunValid : Receiver.Event :=
  Integration.SendOrgCheckRunEvent "test" "valid" "pending" "created".

Definition checkRunExample : Receiver.Event :=
  Integration.SendOrgCheckRunEvent "test" "example" "pending" "created".

(** *** Candidate label rules for workflow jobs

    A job is accepted by runners that carry each of its labels.  Either
    every runner carries self-hosted besides the labels of its template,
    or the labels of a template stand in place of the default label. *)
Definition everyLabelOn (runner job : list string) : bool :=
  forallb (fun l => bool_decide (l ∈ runner)) job.

Definition selfHostedImplied (job template : list string) : bool :=
  everyLabelOn ("self-hosted" :: template) job.

Definition defaultsReplaced (job template : list string) : bool :=
  everyLabelOn (match template with [] => ["self-hosted"] | _ => template end) job.

(** The workflow_job tests (lines 540-638 and 1177-1342): a fresh
    autoscaler with a WorkflowJob trigger over repository runners with the
    given labels, reconciled once. *)
Definition workflowJobCluster (labels : list string) :
    Receiver.State Integration.NoClaimTemplate :=
  Integration.reconcileCluster provider3
    (Integration.cluster
       (Integration.runnerDeployment 1 (Integration.repositoryRunners labels))
       (Integration.horizontalRunnerAutoscaler 1 5 [] Autoscaler.WorkflowJob))
    0.

(** The replicas after one workflow_job.queued event with the given job
    labels. *)
Definition replicasAfterJob (rule : list string -> list string -> bool)
    (templateLabels : list string) (repo : string) (jobLabels : list string) : option Z :=
  Integration.managedReplicas
    (Integration.reconcileCluster provider3
       (Receiver.Handle rule Integration.autoscalerWebhook
          (workflowJobCluster templateLabels) (1 * Main.Second)
          (Integration.delivery "1"
             (Integration.SendWorkflowJobEvent "test" repo "queued" jobLabels))).2
       (2 * Main.Second))
    (2 * Main.Second).

(** The pull_request test (lines 285-417), step by step: the replicas
    after the autoscaler is created, after the Provider's responses are
    swapped, and after each of the two events. *)
Definition pullRequestTest : list (option Z) :=
  let p1 := Integration.fakeProvider Integration.ListRepositoryWorkflowRuns_scaledDown in
  let s0 := Integration.cluster
              (Integration.runnerDeployment 2 (Integration.repositoryRunners []))
              (Integration.horizontalRunnerAutoscaler 1 3 Integration.queuedAndInProgress
                 Integration.pullRequestTrigger) in
  let s1 := Integration.reconcileCluster provider3 s0 0 in
  let s2 := Integration.reconcileCluster p1 s1 (2 * Main.Second) in
  let s3 := Integration.reconcileCluster p1
              (Receiver.Handle anyLabels Integration.autoscalerWebhook s2
                 (3 * Main.Second) (Integration.delivery "1" pullRequest)).2
              (4 * Main.Second) in
  let s4 := Integration.reconcileCluster p1
              (Receiver.Handle anyLabels Integration.autoscalerWebhook s3
                 (5 * Main.Second) (Integration.delivery "2" pullRequest)).2
              (6 * Main.Second) in
  [Integration.managedReplicas s1 0; Integration.managedReplicas s2 0;
   Integration.managedReplicas s3 0; Integration.managedReplicas s4 0].

End Samples.

(** ** Go's [strings] package, as far as [main] uses it *)

Module Strings.

(** Whether the byte [c] occurs in [s]. *)
Fixpoint ContainsByte (s : string) (c : ascii) : bool :=
  match s with
  | EmptyString => false
  | String a rest => if decide (a = c) then true else ContainsByte rest c
  end.

(** [strings.Split(s, sep)] for a separator of one byte: the pieces of
    [s] between the separators, one more than there are separators; the
    empty string has the one piece [""]. *)
Fixpoint Split (s : string) (sep : ascii) : list string :=
  match s with
  | EmptyString => [""]
  | String a rest =>
      let pieces := Split rest sep in
      if decide (a = sep) then "" :: pieces
      else String a (hd "" pieces) :: tl pieces
  end.

(** [strings.Join(elems, sep)]. *)
Fixpoint Join (elems : list string) (sep : string) : string :=
  match elems with
  | [] => ""
  | [e] => e
  | e :: rest => e +:+ sep +:+ Join rest sep
  end.

End Strings.

(** ** main.go: the flag values *)

Module Flags.

Definition comma : ascii := ","%char.

(** [stringSlice.Set], lines 155-158: the value is appended as it is. *)
Definition stringSlice_Set (i : list string) (value : string) :
    list string * option string :=
  ((i ++ [value])%list, None).

(** The loop of [commaSeparatedStringSlice.Set], lines 421-427. *)
Definition appendNonEmpty (s : list string) (v : string) : list string :=
  if decide (v = "") then s else (s ++ [v])%list.

(** [commaSeparatedStringSlice.Set], lines 420-429: the value is split at
    its commas and the pieces that are not empty are appended. *)
Definition commaSeparatedStringSlice_Set (s : list string) (value : string) :
    list string * option string :=
  (foldl appendNonEmpty s (Strings.Split value comma), None).

(** A command line gives a flag any number of times; [flag.Parse] calls
    [Set] once for each, in order, and stops at the first error. *)
Definition parseAll (set : list string -> string -> list string * option string)
    (s : list string) (values : list string) : list string * option string :=
  foldl (fun acc value =>
           match acc with
           | (s, None) => set s value
           | (s, Some err) => (s, Some err)
           end) (s, None) values.

End Flags.

(** ** main.go: the start-up sequence *)

Module Startup.

(** The variables the flags are parsed into (lines 161-187). *)
Record CommandLine := {
  metricsAddr : string;
  enableLeaderElection : bool;
  leaderElectionId : string;
  port : Z;
  syncPeriod : Main.Duration;
  gitHubAPICacheDuration : Main.Duration;
  defaultScaleDownDelay : Main.Duration;
  runnerImage : string;
  runnerImagePullSecrets : list string;
  dockerImage : string;
  dockerRegistryMirror : string;
  namespace : string;
  logLevel : string;
  runnerHookStorageClass : string;
  runnerHookStorageSize : string;
  runnerDefaultJobContainerImage : string;
  commonRunnerLabels : list string
}.

(** The calls of [main] that return an error. *)
Inductive Call :=
| envconfigProcess
| NewClient
| NewManager
| SetupWithManager (controller : string)
| SetupWebhookWithManager (webhook : string)
| injectorSetupWithManager
| Start.

#[global] Instance Call_eq_dec : EqDecision Call.
Proof. solve_decision. Defined.

(** The values [main] logs. *)
Inductive Logged :=
| LString (s : string)
| LStrings (l : list string)
| LBool (b : bool)
| LDuration (d : Main.Duration).

(** What [main] writes: a line on standard error, an error or a message
    of the logger with its keys and values. *)
Inductive Output :=
| Stderr (text : string)
| LogError (msg : string) (keysAndValues : list (string * Logged))
| LogInfo (msg : string) (keysAndValues : list (string * Logged)).

(** A statement of [main]: a call whose error is reported and followed by
    [os.Exit(1)], or a message of the logger. *)
Inductive Statement :=
| Try (c : Call) (onError : Output)
| Info (o : Output).

Definition unableToCreateController (controller : string) : Statement :=
  Try (SetupWithManager controller)
      (LogError "unable to create controller" [("controller", LString controller)]).

Definition unableToCreateWebhook (webhook : string) : Statement :=
  Try (SetupWebhookWithManager webhook)
      (LogError "unable to create webhook" [("webhook", LString webhook)]).

(** Lines 189-313: the environment, the GitHub client, the manager and
    the first four controllers. *)
Definition createManager : list Statement :=
  [ Try envconfigProcess (Stderr "Error: processing environment variables: ");
    Try NewClient (Stderr "Error: Client creation failed.");
    Try NewManager (LogError "unable to start manager" []);
    unableToCreateController "Runner";
    unableToCreateController "RunnerReplicaSet";
    unableToCreateController "RunnerDeployment";
    unableToCreateController "RunnerSet" ].

(** Lines 314-333: the cache duration is settled and logged with the
    other settings. *)
Definition initializing (cl : CommandLine) : Output :=
  LogInfo "Initializing actions-runner-controller"
    [("github-api-cache-duration",
      LDuration (Main.gitHubAPICacheDuration (gitHubAPICacheDuration cl) (syncPeriod cl)));
     ("default-scale-down-delay", LDuration (defaultScaleDownDelay cl));
     ("sync-period", LDuration (syncPeriod cl));
     ("default-runner-image", LString (runnerImage cl));
     ("default-docker-image", LString (dockerImage cl));
     ("common-runnner-labels", LStrings (commonRunnerLabels cl));
     ("leader-election-enabled", LBool (enableLeaderElection cl));
     ("leader-election-id", LString (leaderElectionId cl));
     ("watch-namespace", LString (namespace cl))].

(** Lines 335-405: the other controllers, the admission webhooks and the
    token injector. *)
Definition createControllers : list Statement :=
  [ unableToCreateController "RunnerPod";
    unableToCreateController "HorizontalRunnerAutoscaler";
    unableToCreateController "RunnerPersistentVolume";
    unableToCreateController "RunnerPersistentVolumeClaim";
    unableToCreateWebhook "Runner";
    unableToCreateWebhook "RunnerDeployment";
    unableToCreateWebhook "RunnerReplicaSet";
    Try injectorSetupWithManager
        (LogError "unable to create webhook server"
           [("webhook", LString "PodRunnerTokenInjector")]) ].

(** Lines 407-411. *)
Definition startManager : list Statement :=
  [ Info (LogInfo "starting manager" []);
    Try Start (LogError "problem running manager" []) ].

(** The body of [main], lines 189-411, for a command line that
    [flag.Parse] accepts and a cluster configuration that
    [ctrl.GetConfigOrDie] loads. *)
Definition body (cl : CommandLine) : list Statement :=
  (createManager ++ Info (initializing cl) :: createControllers ++ startManager)%list.

(** A run of the process: the calls made, what was written, and the exit
    status when [os.Exit] ended it ([None]: [main] returned). *)
Record Run := {
  calls : list Call;
  output : list Output;
  exitStatus : option Z
}.

(** The statements are run in order; the first call that fails is
    reported and ends the process with status 1. *)
Fixpoint exec (fails : Call -> bool) (stmts : list Statement) : Run :=
  match stmts with
  | [] => {| calls := []; output := []; exitStatus := None |}
  | Info o :: rest =>
      let r := exec fails rest in
      {| calls := calls r; output := o :: output r; exitStatus := exitStatus r |}
  | Try c onError :: rest =>
      if fails c
      then {| calls := [c]; output := [onError]; exitStatus := Some 1 |}
      else let r := exec fails rest in
           {| calls := c :: calls r; output := output r; exitStatus := exitStatus r |}
  end.








End Startup.

(** ** controllers/integration_test.go: the helpers of the test *)

Module TestHelpers.

(** [controllerName], lines 98-100: [fmt.Sprintf("%s%s", ns.Name, name)]. *)
Definition controllerName (ns name : string) : string := ns +:+ name.

(** The names the five controllers of a test get (lines 110, 124, 134,
    146 and 156). *)
Definition controllers : list string :=
  ["runner"; "runnerreplicaset"; "runnnerdeployment";
   "horizontalrunnerautoscaler"; "horizontalrunnerautoscalergithubwebhook"].

(** [corev1.PodRunning]. *)
Definition PodRunning : string := "Running".

Section Polls.

Context {W : Type}.

(** The function [ExpectRunnerSetsManagedReplicasCountEventuallyEquals]
    polls (lines 1580-1597), from the items the list call left in
    [runnerSets]: -1 unless there is exactly one set, whose replicas are
    then read through the pointer. *)
Definition managedReplicasCount (items : list (V1alpha1.RunnerReplicaSet W)) :
    V1alpha1.result Z :=
  if decide (length items = 0%nat) then V1alpha1.Returns (-1)
  else if decide (length items <> 1%nat) then V1alpha1.Returns (-1)
  else match items with
       | rs :: _ =>
           match V1alpha1.Replicas (V1alpha1.Spec rs) with
           | Some n => V1alpha1.Returns n
           | None => V1alpha1.Panics
           end
       | [] => V1alpha1.Panics
       end.

(** A runner as the poll of [ExpectRunnerCountEventuallyEquals] reads it. *)
Record Runner := {
  runnerName : string;
  runnerPhase : string
}.

(** The client of the API server and the pods it serves are not part of
    the test: [Get] answers the pod of a name or fails, [Patch] takes the
    copy with its phase set and the pod it was copied from and tells
    whether it succeeded; both may change the state of the server. *)
Context {Client Pod : Type}.
Variable Get : Client -> string -> Client * option Pod.
Variable setRunning : Pod -> Pod.
Variable Patch : Client -> Pod -> Pod -> Client * bool.

(** One round of the loop of lines 1550-1568 over a runner: a running
    runner is counted; for any other the pod of its name is fetched and
    its phase patched to Running, and a failure of either call is logged
    and passed over. *)
Definition simulatePodController (state : Z * Client) (r : Runner) : Z * Client :=
  let '(running, c) := state in
  if decide (runnerPhase r = PodRunning) then (running + 1, c)
  else match Get c (runnerName r) with
       | (c', None) => (running, c')
       | (c', Some pod) => (running, fst (Patch c' (setRunning pod) pod))
       end.

(** The function [ExpectRunnerCountEventuallyEquals] polls (lines
    1542-1571), from the runners the list call left in [runners]: the
    count it returns and the server afterwards. *)
Definition runningCount (c : Client) (runners : list Runner) : Z * Client :=
  foldl simulatePodController (0, c) runners.

(** The runners the poll counts. *)
Definition Running (r : Runner) : Prop := runnerPhase r = PodRunning.

#[export] Instance Running_dec r : Decision (Running r).
Proof. unfold Running. apply _. Defined.

End Polls.

End TestHelpers.

(** ** charts/runner/templates/_helpers.tpl: the named templates of the chart *)

Module Helm.

(** *** The functions of the pipelines *)

(** [strings.HasSuffix(s, suffix)]. *)
Definition HasSuffix (s suffix : string) : bool :=
  bool_decide (String.length suffix <= String.length s)%nat &&
  String.eqb
    (String.substring (String.length s - String.length suffix) (String.length suffix) s)
    suffix.

(** [trimSuffix suffix s], that is [strings.TrimSuffix(s, suffix)]: the
    suffix is removed once, if it is there. *)
Definition trimSuffix (suffix s : string) : string :=
  if HasSuffix s suffix
  then String.substring 0 (String.length s - String.length suffix) s
  else s.

(** [trunc c s] for a count that is not negative: [s[:c]] if [s] is
    longer than [c] bytes. *)
Definition trunc (c : nat) (s : string) : string :=
  if bool_decide (c < String.length s)%nat then String.substring 0 c s else s.

(** [default d given] for a value that is a string or not set: the
    default is taken when the value is not set or is empty. *)
Definition default (d : string) (given : option string) : string :=
  match given with
  | None => d
  | Some s => if decide (s = "") then d else s
  end.

(** *** Templates *)

(** What the templates read of the chart and its values.
    [.Values.runner.namespace] is compared with [eq], which needs a
    string: the value is taken to be set. *)
Record Dot := {
  Chart_Name : string;
  Values_runner_name : option string;
  Values_runner_namespace : string
}.

(** A template is text and actions; an action is written with or without
    a trim marker on each side ([{{-] and [-}}]). *)
Inductive Action :=
| Comment
| Define (name : string)
| If (cond : Dot -> bool)
| Else
| End
| Pipeline (p : Dot -> string).

Inductive Item :=
| Text (s : string)
| Tag (trimBefore trimAfter : bool) (a : Action).

(** The white space a trim marker removes: space, tab, carriage return
    and line feed. *)
Definition isSpace (a : ascii) : bool :=
  match nat_of_ascii a with
  | 32%nat | 9%nat | 13%nat | 10%nat => true
  | _ => false
  end.

Fixpoint TrimLeft (s : string) : string :=
  match s with
  | EmptyString => ""
  | String a rest => if isSpace a then TrimLeft rest else s
  end.

Fixpoint TrimRight (s : string) : string :=
  match s with
  | EmptyString => ""
  | String a rest =>
      match TrimRight rest with
      | EmptyString => if isSpace a then "" else String a ""
      | t => String a t
      end
  end.

(** The lexer: a text loses its leading white space after an action
    closed by [-}}] and its trailing white space before an action opened
    by [{{-]. *)
Fixpoint lex (trimmed : bool) (items : list Item) : list Item :=
  match items with
  | [] => []
  | Text s :: rest =>
      let s := if trimmed then TrimLeft s else s in
      let s := match rest with
               | Tag true _ _ :: _ => TrimRight s
               | _ => s
               end in
      Text s :: lex false rest
  | Tag before after a :: rest => Tag before after a :: lex after rest
  end.

(** The items of a [define] up to the [end] that closes it. *)
Fixpoint body (depth : nat) (items : list Item) : list Item :=
  match items with
  | [] => []
  | Tag before after End :: rest =>
      match depth with
      | O => []
      | S depth' => Tag before after End :: body depth' rest
      end
  | Tag before after (If cond) :: rest =>
      Tag before after (If cond) :: body (S depth) rest
  | item :: rest => item :: body depth rest
  end.

Fixpoint lookupTemplate (name : string) (items : list Item) : option (list Item) :=
  match items with
  | [] => None
  | Tag _ _ (Define n) :: rest =>
      if decide (n = name) then Some (body 0 rest) else lookupTemplate name rest
  | _ :: rest => lookupTemplate name rest
  end.

(** Execution of a body; [branches] holds, for each [if] that is open,
    whether the branch being read is the one taken. *)
Fixpoint exec (dot : Dot) (branches : list bool) (items : list Item) : string :=
  let emit (s : string) := if forallb id branches then s else "" in
  match items with
  | [] => ""
  | Text s :: rest => emit s +:+ exec dot branches rest
  | Tag _ _ (Pipeline p) :: rest => emit (p dot) +:+ exec dot branches rest
  | Tag _ _ (If cond) :: rest => exec dot (cond dot :: branches) rest
  | Tag _ _ Else :: rest =>
      match branches with
      | taken :: outer => exec dot (negb taken :: outer) rest
      | [] => exec dot [] rest
      end
  | Tag _ _ End :: rest => exec dot (tl branches) rest
  | Tag _ _ _ :: rest => exec dot branches rest
  end.

Definition lf : string := String (ascii_of_nat 10) "".

(** The three actions of the file that read the chart and its values
    (lines 6, 14 and 17). *)
Definition runnerName (dot : Dot) : string :=
  trimSuffix "-" (trunc 63 (default (Chart_Name dot) (Values_runner_name dot))).

Definition namespaceEmpty (dot : Dot) : bool :=
  bool_decide (Values_runner_namespace dot = "").

Definition runnerNamespace (dot : Dot) : string :=
  trimSuffix "-" (trunc 63 (Values_runner_namespace dot)).

(** The file, action by action. *)
Definition helpers : list Item :=
  [ Tag false false Comment;
    Text lf;
    Tag true true (Define "runner.name");
    Text lf;
    Tag true false (Pipeline runnerName);
    Text lf;
    Tag true false End;
    Text (lf +:+ lf);
    Tag false false Comment;
    Text (lf +:+ lf);
    Tag true true (Define "runner.namespace");
    Text lf;
    Tag true false (If namespaceEmpty);
    Text (lf +:+ "default" +:+ lf);
    Tag true false Else;
    Text lf;
    Tag true false (Pipeline runnerNamespace);
    Text lf;
    Tag true false End;
    Text lf;
    Tag true false End;
    Text (lf +:+ lf) ].

(** [include name dot]: the text the template of that name renders, if
    the file defines it. *)
Definition include (name : string) (dot : Dot) : option string :=
  exec dot [] <$> lookupTemplate name (lex false helpers).

End Helm.

(** ** Sample data for the properties of the code *)

Module Cases.

(** A check that fails for every runner spec. *)
Definition failing {A : Type} : A -> option V1alpha1.error := fun _ => Some "invalid".

(** A chart installed with no values, and one whose values name the
    runner with two dashes at the end. *)
Definition noValues : Helm.Dot :=
  {| Helm.Chart_Name := "runner";
     Helm.Values_runner_name := None;
     Helm.Values_runner_namespace := "" |}.

Definition twoDashes : Helm.Dot :=
  {| Helm.Chart_Name := "runner";
     Helm.Values_runner_name := Some "runner--";
     Helm.Values_runner_namespace := "actions" |}.



(** A server that keeps the names of the pods fetched and patched, and
    two runners that are running. *)
Definition recordGet (c : list string) (name : string) : list string * option string :=
  ((c ++ [name])%list, Some name).

Definition recordPatch (c : list string) (copy pod : string) : list string * bool :=
  ((c ++ [copy])%list, true).

Definition twoRunning : list TestHelpers.Runner :=
  [ {| TestHelpers.runnerName := "runner-a"; TestHelpers.runnerPhase := "Running" |};
    {| TestHelpers.runnerName := "runner-b"; TestHelpers.runnerPhase := "Running" |} ].

End Cases.

(** * Properties *)

(** ** main.go: the cache duration *)

Section MainProperties.


Lemma wrap_id z : Int64.in_range z -> Int64.wrap z = z.
Proof.
  unfold Int64.in_range, Int64.wrap, Int64.min_int, Int64.max_int. intros Hz.
  rewrite Z.mod_small by lia. lia.
Qed.

Lemma ten_seconds : Int64.mul 10 Main.Second = 10000000000.
Proof. reflexivity. Qed.

Lemma cacheDuration_cases flag syncPeriod :
  Main.gitHubAPICacheDuration flag syncPeriod =
  Z.max 0 (if decide (flag = 0) then Int64.wrap (syncPeriod - 10000000000) else flag).
Proof.
  unfold Main.gitHubAPICacheDuration, Int64.sub. rewrite ten_seconds.
  destruct (Z.eqb_spec flag 0); case_decide; try lia;
    match goal with |- context [?d <? 0] => destruct (Z.ltb_spec d 0) end; lia.
Qed.



End MainProperties.

(** Below that range the subtraction wraps around to a positive duration:
    still not negative. *)
Lemma gitHubAPICacheDuration_wraps :
  Main.gitHubAPICacheDuration 0 Int64.min_int = 2 ^ 63 - 10000000000.
Proof. reflexivity. Qed.

(** ** runnerreplicaset_webhook.go *)

Section WebhookProperties.

Import V1alpha1.

Context {W : Type}.
Variable targetErr : RunnerConfig -> error.
Variables checkClaim checkAccount : RunnerSpec W -> option error.

Local Abbreviation Validate' := (Validate targetErr checkClaim checkAccount).
Local Abbreviation ValidateCreate' := (ValidateCreate targetErr checkClaim checkAccount).
Local Abbreviation ValidateUpdate' := (ValidateUpdate targetErr checkClaim checkAccount).

Local Abbreviation fieldErrors' := (fieldErrors targetErr checkClaim checkAccount).

Lemma Validate_fieldErrors (r : RunnerReplicaSet W) :
  Validate' r =
  match fieldErrors' (TemplateSpec (Template (Spec r))) with
  | [] => None
  | errs => Some (Apierrors.NewInvalid (GroupVersionKind r) (Name r) errs)
  end.
Proof.
  unfold Validate, fieldErrors, append, Field.NewPath.
  destruct (ValidateRepository _ _), (checkClaim _), (checkAccount _); reflexivity.
Qed.

Lemma fieldErrors_nil (rs : RunnerSpec W) :
  fieldErrors' rs = [] <->
  foundCount (runnerConfig rs) = 1%nat /\ checkClaim rs = None /\ checkAccount rs = None.
Proof.
  unfold fieldErrors, ValidateRepository.
  destruct (decide (foundCount (runnerConfig rs) = 1%nat)),
           (checkClaim rs), (checkAccount rs); simpl; split;
    try discriminate; try tauto; intros (? & ? & ?); congruence.
Qed.

Lemma fieldErrors_fields (rs : RunnerSpec W) c :
  c ∈ fieldErrors' rs ->
  Field.Type_ c = Field.ErrorTypeInvalid /\
  Field.Field c ∈ [repositoryField; claimTemplateField; accountField].
Proof.
  unfold fieldErrors.
  rewrite !elem_of_app.
  destruct (ValidateRepository _ _), (checkClaim _), (checkAccount _);
    rewrite ?list_elem_of_singleton; intros H;
    repeat match goal with
           | H : _ \/ _ |- _ => destruct H
           | H : _ ∈ [] |- _ => inversion H
           end; subst; (split; [reflexivity | vm_compute; set_solver]).
Qed.

End WebhookProperties.

Section WebhookClaims.

Import V1alpha1.

Context {W : Type}.
Variable targetErr : RunnerConfig -> error.
Variables checkClaim checkAccount : RunnerSpec W -> option error.

Local Abbreviation Validate' := (Validate targetErr checkClaim checkAccount).
Local Abbreviation ValidateCreate' := (ValidateCreate targetErr checkClaim checkAccount).
Local Abbreviation ValidateUpdate' := (ValidateUpdate targetErr checkClaim checkAccount).

(** C8, as amended.  On create and on update the webhook runs [Validate].
    [Validate] accepts exactly the objects whose runner template has one
    of enterprise, organization and repository set and passes the checks
    of the work-volume claim template and of the service account name.
    Any other object is rejected with an [Invalid] error (code 422) whose
    causes are [field.Invalid] errors naming the template field at fault;
    a template with no target or with several always has the cause
    spec.template.spec.repository.  Nothing else of the object is looked
    at: two objects with the same name, kind and template get the same
    verdict, whatever their replicas and selectors. *)
Theorem Validate_checks_the_runner_template (r : RunnerReplicaSet W) :
  let rs := TemplateSpec (Template (Spec r)) in
  ValidateCreate' (Some r) = Returns (Validate' r) /\
  (forall old, ValidateUpdate' (Some r) old = Returns (Validate' r)) /\
  (Validate' r = None <->
   foundCount (runnerConfig rs) = 1%nat /\ checkClaim rs = None /\ checkAccount rs = None) /\
  (forall e, Validate' r = Some e ->
     Apierrors.Reason e = Apierrors.StatusReasonInvalid /\ Apierrors.Code e = 422 /\
     Apierrors.DetailsName e = Name r /\ Apierrors.Causes e <> [] /\
     forall c, c ∈ Apierrors.Causes e ->
       Field.Type_ c = Field.ErrorTypeInvalid /\
       Field.Field c ∈ [repositoryField; claimTemplateField; accountField]) /\
  (foundCount (runnerConfig rs) <> 1%nat ->
   exists e, Validate' r = Some e /\
     Field.Invalid ["spec"; "template"; "spec"; "repository"]
       (StringValue (Repository (runnerConfig rs))) (targetErr (runnerConfig rs))
       ∈ Apierrors.Causes e) /\
  (forall r' : RunnerReplicaSet W,
     Name r' = Name r -> GroupVersionKind r' = GroupVersionKind r ->
     Template (Spec r') = Template (Spec r) -> Validate' r' = Validate' r).
Proof.
  intros rs. split; [reflexivity|]. split; [reflexivity|].
  rewrite Validate_fieldErrors. fold rs.
  split; [|split; [|split]].
  - rewrite <- (fieldErrors_nil targetErr).
    destruct (fieldErrors _ _ _ rs); split; intros; (reflexivity || discriminate).
  - intros e He.
    destruct (fieldErrors _ _ _ rs) as [|c0 errs] eqn:E; [discriminate|].
    injection He as <-. simpl.
    repeat split; try reflexivity; try discriminate;
      rewrite <- E in H; apply fieldErrors_fields in H; apply H.
  - intros Hn.
    destruct (fieldErrors _ _ _ rs) as [|c0 errs] eqn:E.
    + apply fieldErrors_nil in E. fold rs in Hn. tauto.
    + eexists. split; [reflexivity|]. simpl. rewrite <- E.
      unfold fieldErrors, ValidateRepository. rewrite decide_False by assumption.
      apply elem_of_app. left. apply list_elem_of_singleton. reflexivity.
  - intros r' Hname Hgvk Htmpl. rewrite Validate_fieldErrors.
    rewrite Hname, Hgvk, Htmpl. reflexivity.
Qed.

(** C9.  [ValidateDelete] returns nil for every receiver, the nil pointer
    included, and so also for an object that [Validate] rejects and
    [ValidateCreate] therefore refuses. *)
Theorem ValidateDelete_never_rejects (r : option (RunnerReplicaSet W)) :
  ValidateDelete r = Returns None /\
  (forall r0 e, r = Some r0 -> Validate' r0 = Some e ->
     ValidateCreate' r = Returns (Some e) /\ ValidateDelete r = Returns None).
Proof.
  split; [reflexivity|]. intros r0 e -> He. simpl. rewrite He. split; reflexivity.
Qed.

End WebhookClaims.

Lemma Validate_rejects_noTarget :
  V1alpha1.Validate Samples.message Samples.accept Samples.accept Samples.noTarget =
  Some (Apierrors.NewInvalid Samples.groupKind "example-runnerreplicaset"
          [Field.Invalid ["spec"; "template"; "spec"; "repository"]
             (V1alpha1.StringValue "") "invalid"]).
Proof. reflexivity. Qed.

Lemma ValidateDelete_accepts_noTarget :
  V1alpha1.ValidateCreate Samples.message Samples.accept Samples.accept (Some Samples.noTarget) <>
    V1alpha1.Returns None /\
  V1alpha1.ValidateDelete (Some Samples.noTarget) = V1alpha1.Returns None.
Proof.
  destruct (ValidateDelete_never_rejects Samples.message Samples.accept Samples.accept
              (Some Samples.noTarget)) as [_ H].
  destruct (H Samples.noTarget _ eq_refl Validate_rejects_noTarget) as [Hc Hd].
  split; [rewrite Hc; discriminate | exact Hd].
Defined.

Lemma Validate_rejects_noTarget_by_field :
  exists e, V1alpha1.Validate Samples.message Samples.accept Samples.accept Samples.noTarget = Some e /\
    Field.Invalid ["spec"; "template"; "spec"; "repository"]
      (V1alpha1.StringValue "") "invalid" ∈ Apierrors.Causes e.
Proof.
  destruct (Validate_checks_the_runner_template Samples.message Samples.accept
              Samples.accept Samples.noTarget) as (_ & _ & _ & _ & H & _).
  apply H. vm_compute. discriminate.
Defined.

(** The claim as the spec states it fails: an object with a negative
    replica count and a selector that does not select its own template is
    accepted on create and on update when its template passes, and
    whatever the template checks are, no cause of a rejection names
    another field than the template's. *)
Lemma Validate_accepts_negative_replicas :
  V1alpha1.Replicas (V1alpha1.Spec Samples.negativeReplicas) = Some (-1) /\
  ~ V1alpha1.Selects {| V1alpha1.MatchLabels := {[ "foo" := "baz" ]} |}
      (V1alpha1.TemplateLabels (V1alpha1.Template (V1alpha1.Spec Samples.negativeReplicas))) /\
  V1alpha1.ValidateCreate Samples.message Samples.accept Samples.accept
    (Some Samples.negativeReplicas) = V1alpha1.Returns None /\
  V1alpha1.ValidateUpdate Samples.message Samples.accept Samples.accept
    (Some Samples.negativeReplicas) (Some Samples.noTarget) = V1alpha1.Returns None /\
  (forall targetErr checkClaim checkAccount e c,
     V1alpha1.Validate targetErr checkClaim checkAccount Samples.negativeReplicas = Some e ->
     c ∈ Apierrors.Causes e ->
     Field.Field c ∈ [V1alpha1.claimTemplateField; V1alpha1.accountField]).
Proof.
  split; [reflexivity|]. split.
  - unfold V1alpha1.Selects. simpl. intros Hsub.
    pose proof (proj1 (map_subseteq_spec _ _) Hsub "foo" "baz") as H.
    rewrite lookup_singleton_eq in H. specialize (H eq_refl).
    rewrite lookup_singleton_eq in H. discriminate.
  - split; [reflexivity|]. split; [reflexivity|].
    intros targetErr checkClaim checkAccount e c He Hc.
    rewrite Validate_fieldErrors in He.
    unfold V1alpha1.fieldErrors in He.
    replace (V1alpha1.ValidateRepository targetErr _) with (@None V1alpha1.error) in He
      by reflexivity.
    simpl in He.
    destruct (checkClaim _), (checkAccount _); simpl in He;
      try discriminate; injection He as <-; simpl in Hc;
      repeat match goal with
             | H : _ ∈ _ :: _ |- _ => apply elem_of_cons in H as [-> | H]
             | H : _ ∈ [] |- _ => inversion H
             end;
      solve [apply list_elem_of_here
            | apply list_elem_of_further, list_elem_of_here].
Qed.

(** ** The autoscaler *)

Section AutoscalerProperties.

Import Autoscaler.













Lemma metricReplicas_addReservations p cd now t spec st rs :
  metricReplicas p cd now t spec (addReservations st rs) =
  metricReplicas p cd now t spec st.
Proof. reflexivity. Qed.

(** What a reconcile writes, given what the metrics say. *)
Lemma reconcile_inv r p t spec st now out :
  reconcile r p t spec st now = Some out ->
  exists m cache,
    metricReplicas p (Main.CacheDuration r) now t spec st = Some (m, cache) /\
    let s := scaleDownSuppression (scaleDownDelay (Main.DefaultScaleDownDelay r) spec)
                                  st now (raw spec st now m) in
    targetReplicas out = decided s /\
    desiredReplicas (newStatus out) = Some (decided s) /\
    lastSuccessfulScaleOutTime (newStatus out) = scaleOutTime s /\
    capacityReservations (newStatus out) = gcReservations now (capacityReservations st) /\
    cacheEntries (newStatus out) = cache /\
    requeue out = requeueAfter s.
Proof.
  unfold reconcile. intros H.
  destruct (metricReplicas _ _ _ _ _ _) as [[m cache]|]; [|discriminate].
  simpl in H. injection H as <-. exists m, cache. simpl. repeat split; reflexivity.
Qed.

Lemma reconcile_metric r p t spec st now m cache :
  metricReplicas p (Main.CacheDuration r) now t spec st = Some (m, cache) ->
  exists out, reconcile r p t spec st now = Some out /\
    let s := scaleDownSuppression (scaleDownDelay (Main.DefaultScaleDownDelay r) spec)
                                  st now (raw spec st now m) in
    targetReplicas out = decided s /\
    desiredReplicas (newStatus out) = Some (decided s) /\
    lastSuccessfulScaleOutTime (newStatus out) = scaleOutTime s /\
    requeue out = requeueAfter s.
Proof.
  intros H. unfold reconcile. rewrite H. simpl. eexists. split; [reflexivity|].
  simpl. repeat split; reflexivity.
Qed.

(** The two outcomes of scale-down suppression. *)
Lemma suppression_cases delay st now x :
  (Held delay st now x /\
   exists prev last, desiredReplicas st = Some prev /\
     lastSuccessfulScaleOutTime st = Some last /\
     x < prev /\ now - last < delay /\
     decided (scaleDownSuppression delay st now x) = prev /\
     scaleOutTime (scaleDownSuppression delay st now x) = Some last /\
     requeueAfter (scaleDownSuppression delay st now x) = Some (delay - (now - last))) \/
  (~ Held delay st now x /\
   decided (scaleDownSuppression delay st now x) = x /\
   requeueAfter (scaleDownSuppression delay st now x) = None).
Proof.
  unfold scaleDownSuppression. destruct (decide (Held delay st now x)) as [H|H].
  - left. split; [exact H|]. unfold Held in H.
    destruct (desiredReplicas st) as [prev|]; [|contradiction].
    destruct (lastSuccessfulScaleOutTime st) as [last|]; [|contradiction].
    exists prev, last. simpl. tauto.
  - right. simpl. tauto.
Qed.

End AutoscalerProperties.

Section AutoscalerClaims.

Import Autoscaler.



End AutoscalerClaims.


Section ScaleDownDelay.

Import Autoscaler.

Variable r : Main.HorizontalRunnerAutoscalerReconciler.
Variable t : Target.
Variable spec : HRASpec.

Local Abbreviation delay := (scaleDownDelay (Main.DefaultScaleDownDelay r) spec).

Lemma Kept_perform t0 d st a :
  (forall now p, a = Reconcile now p -> t0 <= now < t0 + delay) ->
  Kept t0 d st -> Kept t0 d (perform r t spec st a).
Proof.
  intros Hwin (d' & last & Hd' & Hle & Hlast & Ht0).
  destruct a as [now p | rs]; simpl.
  - specialize (Hwin now p eq_refl).
    destruct (reconcile r p t spec st now) as [out|] eqn:E;
      [|exists d', last; tauto].
    destruct (reconcile_inv _ _ _ _ _ _ _ E) as (m & cache & _ & _ & Hdes & Hso & _).
    cbv zeta in Hdes, Hso. unfold Kept. rewrite Hdes, Hso.
    destruct (suppression_cases delay st now (raw spec st now m))
      as [(_ & prev & last' & Hp & Hl & _ & _ & Hdec & Hsot & _) | (Hnh & Hdec & _)].
    + rewrite Hdec, Hsot. rewrite Hd' in Hp. injection Hp as <-.
      rewrite Hlast in Hl. injection Hl as <-.
      exists d', last. tauto.
    + rewrite Hdec.
      assert (d' <= raw spec st now m) as Hraw.
      { destruct (Z.le_gt_cases d' (raw spec st now m)) as [|Hc]; [assumption|].
        exfalso. apply Hnh. unfold Held. rewrite Hd', Hlast. lia. }
      unfold scaleDownSuppression. rewrite decide_False by exact Hnh. simpl.
      rewrite Hd'. case_decide.
      * exists (raw spec st now m), now. repeat split; try reflexivity; lia.
      * exists (raw spec st now m), last. repeat split; try reflexivity; try assumption; lia.
  - exists d', last. tauto.
Qed.

Lemma Kept_run t0 d actions : forall st,
  (forall now p, Reconcile now p ∈ actions -> t0 <= now < t0 + delay) ->
  Kept t0 d st -> Kept t0 d (run r t spec st actions).
Proof.
  induction actions as [|a actions IH]; intros st Hwin Hk; [exact Hk|].
  unfold run. simpl. apply IH.
  - intros now p Hin. apply (Hwin now p). right. exact Hin.
  - apply Kept_perform; [|exact Hk].
    intros now p ->. apply (Hwin now p). left.
Qed.

(** C4.  When the count the reconciler has just computed is lower than
    the one on record and less than the scale-down delay has passed since
    the last scale-out, the reconcile writes the count on record again and
    asks to be requeued after the rest of the delay.  So after a reconcile
    at [t0] that raises the count to [d] (or writes [d] as the first
    count), whatever reconciles (at instants
    within the delay after [t0], against any state of the Provider) and
    receiver writes follow, the count on record stays at [d] or above. *)
Theorem scaleDown_is_delayed :
  (forall p st now m cache prev last,
     metricReplicas p (Main.CacheDuration r) now t spec st = Some (m, cache) ->
     desiredReplicas st = Some prev ->
     lastSuccessfulScaleOutTime st = Some last ->
     raw spec st now m < prev ->
     now - last < delay ->
     exists out, reconcile r p t spec st now = Some out /\
       desiredReplicas (newStatus out) = Some prev /\
       targetReplicas out = prev /\
       lastSuccessfulScaleOutTime (newStatus out) = Some last /\
       requeue out = Some (delay - (now - last))) /\
  (forall p st t0 out d actions,
     reconcile r p t spec st t0 = Some out ->
     desiredReplicas (newStatus out) = Some d ->
     (forall prev, desiredReplicas st = Some prev -> prev < d) ->
     (forall now p', Reconcile now p' ∈ actions -> t0 <= now < t0 + delay) ->
     exists d', desiredReplicas (run r t spec (newStatus out) actions) = Some d' /\
                d <= d').
Proof.
  split.
  - intros p st now m cache prev last Hm Hp Hl Hraw Hd.
    destruct (reconcile_metric r p t spec st now m cache Hm)
      as (out & Hrec & Htgt & Hdes & Hso & Hrq).
    cbv zeta in Htgt, Hdes, Hso, Hrq.
    exists out. split; [exact Hrec|].
    destruct (suppression_cases delay st now (raw spec st now m))
      as [(_ & prev' & last' & Hp' & Hl' & _ & _ & Hdec & Hsot & Hreq) | (Hnh & _)].
    + rewrite Hp in Hp'. injection Hp' as <-. rewrite Hl in Hl'. injection Hl' as <-.
      rewrite Hdes, Htgt, Hso, Hrq, Hdec, Hsot, Hreq. repeat split; reflexivity.
    + exfalso. apply Hnh. unfold Held. rewrite Hp, Hl. lia.
  - intros p st t0 out d actions Hrec Hd Hlt Hwin.
    assert (Kept t0 d (newStatus out)) as Hk.
    { destruct (reconcile_inv _ _ _ _ _ _ _ Hrec) as (m & cache & _ & _ & Hdes & Hso & _).
      cbv zeta in Hdes, Hso. rewrite Hd in Hdes. injection Hdes as Hdec.
      destruct (suppression_cases delay st t0 (raw spec st t0 m))
        as [(_ & prev' & last' & Hp' & _ & _ & _ & Hdec' & _) | (Hnh & Hdec' & _)].
      - specialize (Hlt prev' Hp'). lia.
      - exists d, t0. split; [exact Hd|]. split; [lia|]. split; [|lia].
        rewrite Hso. unfold scaleDownSuppression. rewrite decide_False by exact Hnh.
        simpl. destruct (desiredReplicas st) as [prev|]; [|reflexivity].
        specialize (Hlt prev eq_refl). rewrite decide_True by lia. reflexivity. }
    destruct (Kept_run t0 d actions (newStatus out) Hwin Hk) as (d' & last & Hd' & Hle & _).
    exists d'. tauto.
Qed.

End ScaleDownDelay.

Lemma scaleDown_held_within_a_second :
  (exists out,
     Autoscaler.reconcile Samples.uncached
       (Integration.fakeProvider Integration.ListRepositoryWorkflowRuns_scaledDown)
       Samples.testTarget Samples.pullRequestSpec Samples.threeReplicas
       1500000000 = Some out /\
     Autoscaler.targetReplicas out = 3 /\
     Autoscaler.requeue out = Some 500000000) /\
  (exists d',
     Autoscaler.desiredReplicas
       (Autoscaler.run Samples.uncached Samples.testTarget Samples.pullRequestSpec
          Samples.threeReplicas
          [Autoscaler.Reconcile 1500000000
             (Integration.fakeProvider Integration.ListRepositoryWorkflowRuns_scaledDown)])
     = Some d' /\ 3 <= d').
Proof.
  destruct (scaleDown_is_delayed Samples.uncached Samples.testTarget Samples.pullRequestSpec)
    as [Hold Hwindow].
  split.
  - destruct (Hold (Integration.fakeProvider Integration.ListRepositoryWorkflowRuns_scaledDown)
                Samples.threeReplicas 1500000000 1
                [{| Autoscaler.cacheTarget := Samples.testTarget;
                    Autoscaler.cacheStatus := "queued";
                    Autoscaler.cacheRepository := None;
                    Autoscaler.cacheValue := 1;
                    Autoscaler.cacheExpiration := 1500000000 |};
                 {| Autoscaler.cacheTarget := Samples.testTarget;
                    Autoscaler.cacheStatus := "in_progress";
                    Autoscaler.cacheRepository := None;
                    Autoscaler.cacheValue := 0;
                    Autoscaler.cacheExpiration := 1500000000 |}]
                3 1000000000)
      as (out & Hout & _ & Htgt & _ & Hrq);
      [vm_compute; reflexivity | reflexivity | reflexivity
      | vm_compute; reflexivity | vm_compute; reflexivity |].
    exists out. split; [exact Hout|]. split; [exact Htgt|]. rewrite Hrq. vm_compute. reflexivity.
  - destruct (Autoscaler.reconcile Samples.uncached
                (Integration.fakeProvider Integration.ListRepositoryWorkflowRuns)
                Samples.testTarget Samples.pullRequestSpec Samples.oneReplica
                1000000000) as [out|] eqn:E; [|vm_compute in E; discriminate].
    destruct (Hwindow _ _ _ _ 3
                [Autoscaler.Reconcile 1500000000
                   (Integration.fakeProvider Integration.ListRepositoryWorkflowRuns_scaledDown)]
                E) as (d' & Hd' & Hle).
    + vm_compute in E. injection E as <-. reflexivity.
    + intros prev Hprev. injection Hprev as <-. lia.
    + intros now p' Hin. apply list_elem_of_singleton in Hin. injection Hin as -> _.
      vm_compute. split; [discriminate | reflexivity].
    + vm_compute in E. injection E as <-. exists d'. split; [|exact Hle].
      rewrite <- Hd'. vm_compute. reflexivity.
Defined.

Section NoMetrics.

Import Autoscaler.


End NoMetrics.

(** The first test: an autoscaler with [minReplicas] 2, [maxReplicas] 5
    and no metrics over a deployment of one replica brings the active
    RunnerReplicaSet to two replicas. *)
Lemma scale_to_minReplicas_in_test :
  Integration.managedReplicas
    (Integration.reconcileCluster
       (Integration.fakeProvider Integration.ListRepositoryWorkflowRuns)
       (Integration.cluster
          (Integration.runnerDeployment 1 Integration.organizationRunners)
          (Integration.horizontalRunnerAutoscaler 2 5 [] Integration.pullRequestTrigger))
       0) 0 = Some 2.
Proof. vm_compute. reflexivity. Qed.



Section QueuedAndInProgress.

Import Autoscaler.

Lemma cacheLookup_nil now t status repo : cacheLookup now t status repo [] = None.
Proof. reflexivity. Qed.





End QueuedAndInProgress.



(** ** The webhook receiver *)

Section ReceiverProperties.

Import Autoscaler Receiver.

Context {W : Type}.
Variable accepted : list string -> list string -> bool.
Variable cfg : Config.

Local Abbreviation Handle' := (Handle (W:=W) accepted cfg).







End ReceiverProperties.

Section TwoEvents.

Import Autoscaler Receiver.

Context {W : Type}.
Variable accepted : list string -> list string -> bool.
Variable cfg : Config.

(** The state after two deliveries, one after the other. *)
Local Abbreviation after s dA nowA dB nowB :=
  (Handle (W:=W) accepted cfg (Handle (W:=W) accepted cfg s nowA dA).2 nowB dB).2.


End TwoEvents.


Section CheckRun.

Import Autoscaler Receiver.

Variable accepted : list string -> list string -> bool.

Local Abbreviation deliver s id e :=
  (Handle accepted Integration.autoscalerWebhook s (1 * Main.Second)
     (Integration.delivery id e)).2.

Local Abbreviation replicasAfter s :=
  (Integration.managedReplicas
     (Integration.reconcileCluster Samples.provider3 s (2 * Main.Second))
     (2 * Main.Second)).

(** C5.  A CheckRun trigger matches an event exactly when the event is a
    check_run, its action is among the trigger's types, its status is the
    trigger's and its repository is among the trigger's repositories or
    these are empty; so an empty list of repositories matches every
    repository.  With the trigger of the test (types created, status
    pending, repositories valid, foo, bar) the event for repository valid
    matches and the event for repository example does not: on the test's
    cluster, and on one whose runners serve the whole organization, the
    first appends exactly one reservation and the next reconcile goes from
    three replicas to four, and the second appends none and the replicas
    stay at three. *)
Theorem check_run_repository_filter :
  (forall templateLabels types st repositories e,
     Matches accepted templateLabels (CheckRun types st repositories) e <->
     eventType e = check_run /\ action e ∈ types /\ status e = st /\
     (repositories = [] \/ repository e ∈ repositories)) /\
  (forall templateLabels types st e,
     eventType e = check_run -> action e ∈ types -> status e = st ->
     Matches accepted templateLabels (CheckRun types st []) e) /\
  Matches accepted [] Integration.checkRunTrigger Samples.checkRunValid /\
  ~ Matches accepted [] Integration.checkRunTrigger Samples.checkRunExample /\
  (forall s, s = Samples.checkRunCluster \/ s = Samples.checkRunOrganizationCluster ->
     Integration.managedReplicas s 0 = Some 3 /\
     Integration.reservationCount s = Some 0%nat /\
     Integration.reservationCount (deliver s "1" Samples.checkRunValid) = Some 1%nat /\
     replicasAfter (deliver s "1" Samples.checkRunValid) = Some 4 /\
     Integration.reservationCount (deliver s "1" Samples.checkRunExample) = Some 0%nat /\
     replicasAfter (deliver s "1" Samples.checkRunExample) = Some 3).
Proof.
  split; [intros; reflexivity|].
  split; [intros tl types st e H1 H2 H3; simpl; tauto|].
  split; [vm_compute; repeat split; try reflexivity;
          [apply list_elem_of_here | right; apply list_elem_of_here]|].
  split.
  - intros (_ & _ & _ & [H | H]); [discriminate|].
    vm_compute in H.
    repeat (apply elem_of_cons in H as [H | H]; [discriminate|]).
    inversion H.
  - intros s [-> | ->]; vm_compute; repeat split; reflexivity.
Qed.

End CheckRun.

Lemma check_run_any_repository :
  Receiver.Matches Samples.anyLabels [] Integration.checkRunTriggerAnyRepository
    Samples.checkRunExample /\
  Integration.reservationCount
    (Receiver.Handle Samples.anyLabels Integration.autoscalerWebhook
       Samples.checkRunCluster (1 * Main.Second)
       (Integration.delivery "1" Samples.checkRunValid)).2 = Some 1%nat.
Proof.
  destruct (check_run_repository_filter Samples.anyLabels) as (_ & Hany & _ & _ & Hs).
  split.
  - apply Hany; [reflexivity | apply list_elem_of_here | reflexivity].
  - apply (Hs Samples.checkRunCluster). left. reflexivity.
Defined.

(** ** The integration test, replayed on the model *)

(** Lines 285-417: three replicas from the metric, one after the
    scale-down, then two and three after the two pull requests. *)
Lemma pull_request_test : Samples.pullRequestTest = [Some 3; Some 1; Some 2; Some 3].
Proof. vm_compute. reflexivity. Qed.

(** The workflow_job tests fix the label rule at two points only: a job
    labelled self-hosted is accepted by runners whose template lists no
    label (lines 617-629 and 1251-1257), and a job labelled custom-label
    by runners whose template lists custom-label (lines 1335-1341); a job
    for another repository is not served (lines 631-637).  Both candidate
    rules reproduce the tests, and they part on a job labelled self-hosted
    sent to the runners labelled custom-label, which no test sends. *)
Lemma workflow_job_tests rule :
  rule = Samples.selfHostedImplied \/ rule = Samples.defaultsReplaced ->
  Samples.replicasAfterJob rule [] "valid" ["self-hosted"] = Some 2 /\
  Samples.replicasAfterJob rule [] "example" ["self-hosted"] = Some 1 /\
  Samples.replicasAfterJob rule ["custom-label"] "valid" ["custom-label"] = Some 2.
Proof. intros [-> | ->]; vm_compute; repeat split; reflexivity. Qed.

Lemma workflow_job_label_rules_part :
  Samples.replicasAfterJob Samples.selfHostedImplied
    ["custom-label"] "valid" ["self-hosted"] = Some 2 /\
  Samples.replicasAfterJob Samples.defaultsReplaced
    ["custom-label"] "valid" ["self-hosted"] = Some 1.
Proof. vm_compute. split; reflexivity. Qed.

(** * Further properties of the code *)

Section FlagProperties.

Import Strings Flags.

Lemma Split_nonempty s sep : Split s sep <> [].
Proof. destruct s as [|a rest]; simpl; [discriminate|]. case_decide; discriminate. Qed.

Lemma Split_cons s sep : Split s sep = hd "" (Split s sep) :: tl (Split s sep).
Proof. pose proof (Split_nonempty s sep). destruct (Split s sep); [contradiction | reflexivity]. Qed.

Lemma Split_app a b sep :
  Split (a +:+ String sep b) sep = (Split a sep ++ Split b sep)%list.
Proof.
  induction a as [|c a IH]; simpl.
  - rewrite decide_True by reflexivity. reflexivity.
  - rewrite IH. case_decide; [reflexivity|].
    rewrite (Split_cons a sep) at 1 2. reflexivity.
Qed.

Lemma Split_pieces s sep p : p ∈ Split s sep -> ContainsByte p sep = false.
Proof.
  revert p. induction s as [|a rest IH]; simpl; intros p Hp.
  - apply list_elem_of_singleton in Hp as ->. reflexivity.
  - case_decide.
    + apply elem_of_cons in Hp as [-> | Hp]; [reflexivity | apply IH, Hp].
    + rewrite (Split_cons rest sep) in IH.
      apply elem_of_cons in Hp as [-> | Hp].
      * simpl. rewrite decide_False by assumption. apply IH. left.
      * apply IH. right. exact Hp.
Qed.

Lemma Split_without_sep s sep : ContainsByte s sep = false -> Split s sep = [s].
Proof.
  induction s as [|a rest IH]; simpl; [reflexivity|].
  case_decide; [discriminate|]. intros Hrest. rewrite (IH Hrest). reflexivity.
Qed.

Lemma Split_Join elems sep :
  elems <> [] -> Forall (fun e => ContainsByte e sep = false) elems ->
  Split (Join elems (String sep "")) sep = elems.
Proof.
  induction elems as [|e rest IH]; [contradiction|]. intros _ Hall.
  apply Forall_cons in Hall as [He Hrest].
  destruct rest as [|e' rest]; [apply Split_without_sep, He|].
  change (Join (e :: e' :: rest) (String sep ""))
    with (e +:+ String sep "" +:+ Join (e' :: rest) (String sep "")).
  change (String sep "" +:+ Join (e' :: rest) (String sep ""))
    with (String sep (Join (e' :: rest) (String sep ""))).
  rewrite Split_app, (Split_without_sep e sep He), IH by (discriminate || assumption).
  reflexivity.
Qed.

Lemma foldl_appendNonEmpty s pieces :
  foldl appendNonEmpty s pieces = (s ++ filter (fun v => v <> "") pieces)%list.
Proof.
  revert s. induction pieces as [|v pieces IH]; intros s; simpl.
  - rewrite app_nil_r. reflexivity.
  - rewrite IH. unfold appendNonEmpty. rewrite filter_cons.
    destruct (decide (v = "")) as [->|Hv].
    + rewrite decide_False by tauto. reflexivity.
    + rewrite decide_True by assumption. rewrite <- app_assoc. reflexivity.
Qed.

End FlagProperties.

Section FlagValues.

Import Strings Flags.

Lemma Set_filter s value :
  commaSeparatedStringSlice_Set s value =
  ((s ++ filter (fun v => v <> "") (Split value comma))%list, None).
Proof. unfold commaSeparatedStringSlice_Set. rewrite foldl_appendNonEmpty. reflexivity. Qed.

(** X1.  [commaSeparatedStringSlice.Set] never fails and only appends:
    what was in the slice stays in front, and every label it adds is
    non-empty and free of commas.  An empty value adds nothing. *)
Theorem commaSeparatedStringSlice_Set_appends_labels s value :
  (commaSeparatedStringSlice_Set s value).2 = None /\
  (exists added,
     (commaSeparatedStringSlice_Set s value).1 = (s ++ added)%list /\
     Forall (fun v => v <> "" /\ ContainsByte v comma = false) added) /\
  commaSeparatedStringSlice_Set s "" = (s, None).
Proof.
  rewrite Set_filter. split; [reflexivity|]. split.
  - eexists. split; [reflexivity|]. apply Forall_forall. intros v Hv.
    apply list_elem_of_filter in Hv as [Hne Hin].
    split; [exact Hne | exact (Split_pieces _ _ _ Hin)].
  - rewrite Set_filter. simpl. rewrite app_nil_r. reflexivity.
Qed.

(** X2.  Setting a value made of two parts joined by a comma is setting
    the first part and then the second. *)
Theorem commaSeparatedStringSlice_Set_comma s a b :
  commaSeparatedStringSlice_Set s (a +:+ "," +:+ b) =
  commaSeparatedStringSlice_Set (commaSeparatedStringSlice_Set s a).1 b.
Proof.
  change (a +:+ "," +:+ b) with (a +:+ String comma b).
  rewrite !Set_filter. simpl. rewrite Split_app, filter_app, app_assoc. reflexivity.
Qed.

(** X3.  Labels that are non-empty and free of commas, written in the
    K1=V1,K2=V2,... format of the flag, are appended as they are and in
    their order. *)
Theorem commaSeparatedStringSlice_Set_Join s labels :
  Forall (fun e => e <> "" /\ ContainsByte e comma = false) labels ->
  commaSeparatedStringSlice_Set s (Join labels ",") = ((s ++ labels)%list, None).
Proof.
  intros Hall. rewrite Set_filter. f_equal. f_equal.
  destruct labels as [|e rest]; [reflexivity|].
  change "," with (String comma ""). rewrite Split_Join.
  - induction Hall as [|x l [Hx _] _ IH]; [reflexivity|].
    rewrite filter_cons_True by exact Hx. rewrite IH. reflexivity.
  - discriminate.
  - eapply Forall_impl; [exact Hall|]. intros x [_ Hx]. exact Hx.
Qed.

Lemma commaSeparatedStringSlice_Set_two_labels :
  commaSeparatedStringSlice_Set ["os=linux"] "team=a,tier=b" =
  (["os=linux"; "team=a"; "tier=b"], None).
Proof.
  apply (commaSeparatedStringSlice_Set_Join ["os=linux"] ["team=a"; "tier=b"]).
  repeat constructor; discriminate.
Defined.

(** X4.  The two kinds of flag value agree on a value exactly when it is
    non-empty and free of commas: [stringSlice.Set] keeps every value as
    it is, empty values and commas included. *)
Theorem Set_agree_iff s value :
  commaSeparatedStringSlice_Set s value = stringSlice_Set s value <->
  value <> "" /\ ContainsByte value comma = false.
Proof.
  rewrite Set_filter. unfold stringSlice_Set. split.
  - intros H. injection H as H. apply app_inv_head in H.
    assert (value ∈ filter (fun v => v <> "") (Split value comma)) as Hin
      by (rewrite H; left).
    apply list_elem_of_filter in Hin as [Hne Hin].
    split; [exact Hne | exact (Split_pieces _ _ _ Hin)].
  - intros [Hne Hfree]. rewrite (Split_without_sep _ _ Hfree).
    rewrite filter_cons_True by exact Hne. reflexivity.
Qed.

Lemma parseAll_cons set s value values :
  parseAll set s (value :: values) =
  match set s value with
  | (s', None) => parseAll set s' values
  | (s', Some err) => (s', Some err)
  end.
Proof.
  unfold parseAll. simpl. destruct (set s value) as [s' [err|]]; [|reflexivity].
  induction values as [|v vs IH]; [reflexivity | exact IH].
Qed.

(** X5.  A flag given several times accumulates: the image-pull secrets
    are the values in the order given, and giving common-runner-labels
    several times is giving it once with the values joined by commas. *)
Theorem parseAll_accumulates s values :
  parseAll stringSlice_Set s values = ((s ++ values)%list, None) /\
  parseAll commaSeparatedStringSlice_Set s values =
    commaSeparatedStringSlice_Set s (Join values ",").
Proof.
  split.
  - revert s. induction values as [|v vs IH]; intros s.
    + unfold parseAll. simpl. rewrite app_nil_r. reflexivity.
    + rewrite parseAll_cons. simpl. rewrite IH, <- app_assoc. reflexivity.
  - revert s. induction values as [|v vs IH]; intros s.
    + rewrite Set_filter. simpl. rewrite app_nil_r. reflexivity.
    + rewrite parseAll_cons. rewrite (Set_filter s v). rewrite IH.
      destruct vs as [|v' vs].
      * simpl. rewrite !Set_filter. simpl. rewrite app_nil_r. reflexivity.
      * change (Join (v :: v' :: vs) ",") with (v +:+ String comma (Join (v' :: vs) ",")).
        rewrite !Set_filter. simpl. rewrite Split_app, filter_app, app_assoc. reflexivity.
Qed.

End FlagValues.

Section CacheDurationProperties.

Lemma wrap_no_underflow syncPeriod :
  Int64.in_range syncPeriod -> Int64.min_int + 10 * Main.Second <= syncPeriod ->
  Int64.sub syncPeriod (Int64.mul 10 Main.Second) = syncPeriod - 10 * Main.Second.
Proof.
  intros Hr Hlo. unfold Int64.sub. rewrite ten_seconds. rewrite wrap_id.
  - unfold Main.Second. lia.
  - unfold Int64.in_range, Int64.min_int, Int64.max_int, Main.Second in *. lia.
Qed.

(** X6.  Caching is off (a duration of 0) exactly when the flag is
    negative, or is 0 with a sync period of at most ten seconds.  So with
    a sync period above ten seconds a flag of 0 does not turn caching off:
    it asks for the default, and only a negative flag gives 0. *)
Theorem gitHubAPICacheDuration_zero_iff (flag syncPeriod : Z) :
  Int64.in_range syncPeriod -> Int64.min_int + 10 * Main.Second <= syncPeriod ->
  (Main.gitHubAPICacheDuration flag syncPeriod = 0 <->
   flag < 0 \/ (flag = 0 /\ syncPeriod <= 10 * Main.Second)) /\
  (10 * Main.Second < syncPeriod ->
   Main.gitHubAPICacheDuration 0 syncPeriod <> 0).
Proof.
  intros Hr Hlo. rewrite !cacheDuration_cases.
  pose proof (wrap_no_underflow syncPeriod Hr Hlo) as Hw.
  unfold Int64.sub in Hw. rewrite ten_seconds in Hw.
  unfold Main.Second in *. split.
  - case_decide; [subst; rewrite Hw|]; lia.
  - intros Hs. rewrite decide_True by reflexivity. rewrite Hw. lia.
Qed.

Lemma gitHubAPICacheDuration_zero_flag_default :
  Main.gitHubAPICacheDuration 0 Main.Minute <> 0.
Proof.
  apply (gitHubAPICacheDuration_zero_iff 0 Main.Minute);
    vm_compute; intuition discriminate.
Defined.

(** X7.  With the flag at 0 the cache duration follows the sync period:
    it is shorter than a positive sync period (a cached answer has expired
    by the next periodic sync) and it does not decrease when the sync
    period grows.  A positive flag is handed over as it is, whatever the
    sync period. *)
Theorem gitHubAPICacheDuration_follows_syncPeriod (flag s1 s2 : Z) :
  Int64.in_range s1 -> Int64.in_range s2 ->
  Int64.min_int + 10 * Main.Second <= s1 <= s2 ->
  (0 < s1 -> Main.gitHubAPICacheDuration 0 s1 < s1) /\
  Main.gitHubAPICacheDuration 0 s1 <= Main.gitHubAPICacheDuration 0 s2 /\
  (0 < flag -> Main.gitHubAPICacheDuration flag s1 = flag).
Proof.
  intros Hr1 Hr2 [Hlo Hle]. rewrite !cacheDuration_cases.
  pose proof (wrap_no_underflow s1 Hr1 Hlo) as Hw1.
  pose proof (wrap_no_underflow s2 Hr2 ltac:(lia)) as Hw2.
  unfold Int64.sub in Hw1, Hw2. rewrite ten_seconds in Hw1, Hw2.
  unfold Main.Second in *.
  rewrite !(decide_True (P := 0 = 0)) by reflexivity. rewrite Hw1, Hw2.
  split; [lia|]. split; [lia|]. intros Hf. rewrite decide_False by lia. lia.
Qed.

Lemma gitHubAPICacheDuration_default_flags :
  Main.gitHubAPICacheDuration 0 Main.Minute < Main.Minute /\
  Main.gitHubAPICacheDuration 0 Main.Minute <=
    Main.gitHubAPICacheDuration 0 (2 * Main.Minute) /\
  Main.gitHubAPICacheDuration (10 * Main.Minute) Main.Minute = 10 * Main.Minute.
Proof.
  destruct (gitHubAPICacheDuration_follows_syncPeriod (10 * Main.Minute)
              Main.Minute (2 * Main.Minute)) as (H1 & H2 & H3);
    [vm_compute; split; discriminate | vm_compute; split; discriminate
    | vm_compute; split; discriminate |].
  split; [apply H1; reflexivity|]. split; [exact H2 | apply H3; reflexivity].
Defined.

End CacheDurationProperties.

Section StartupProperties.

Import Startup.

Variable fails : Call -> bool.



End StartupProperties.

Section StartupRuns.

Import Startup.

Variable fails : Call -> bool.

Local Abbreviation Ok := (fun c => fails c = false).









End StartupRuns.




Section WebhookReports.

Import V1alpha1.

Context {W : Type}.
Variable targetErr : RunnerConfig -> error.
Variables checkClaim checkAccount : RunnerSpec W -> option error.

Local Abbreviation Validate' := (Validate targetErr checkClaim checkAccount).

(** X11.  [Validate] runs its three checks whatever the earlier ones
    found: a rejection lists one cause for each check that failed, in the
    order repository, work-volume claim template, service account name,
    each with the text of the check's error and the value of the field. *)
Theorem Validate_reports_every_failure (r : RunnerReplicaSet W) e :
  Validate' r = Some e ->
  let rs := TemplateSpec (Template (Spec r)) in
  Field.Field <$> Apierrors.Causes e =
    ((if decide (foundCount (runnerConfig rs) = 1%nat) then [] else [repositoryField]) ++
     (if checkClaim rs is Some _ then [claimTemplateField] else []) ++
     (if checkAccount rs is Some _ then [accountField] else []))%list /\
  (forall msg, checkClaim rs = Some msg ->
     Field.Invalid ["spec"; "template"; "spec"; "workVolumeClaimTemplate"]
       (ClaimTemplateValue (WorkVolumeClaimTemplate_ (runnerPodSpec rs))) msg
     ∈ Apierrors.Causes e) /\
  (forall msg, checkAccount rs = Some msg ->
     Field.Invalid ["spec"; "template"; "spec"; "serviceAccountName"]
       (StringValue (ServiceAccountName (runnerPodSpec rs))) msg
     ∈ Apierrors.Causes e) /\
  (1 <= length (Apierrors.Causes e) <= 3)%nat.
Proof.
  intros He rs. rewrite Validate_fieldErrors in He. fold rs in He.
  assert (Apierrors.Causes e = fieldErrors targetErr checkClaim checkAccount rs) as ->.
  { destruct (fieldErrors _ _ _ rs); [discriminate|]. injection He as <-. reflexivity. }
  assert (fieldErrors targetErr checkClaim checkAccount rs <> []) as Hne.
  { destruct (fieldErrors _ _ _ rs); [discriminate | discriminate]. }
  revert Hne. unfold fieldErrors, ValidateRepository.
  destruct (decide (foundCount (runnerConfig rs) = 1%nat)),
           (checkClaim rs) as [m1|], (checkAccount rs) as [m2|];
    simpl; intros Hne; try contradiction;
    (split; [reflexivity|]); (split; [|split]);
    try (intros msg Hmsg; try discriminate; injection Hmsg as <-;
         repeat first [apply list_elem_of_here | apply list_elem_of_further]);
    lia.
Qed.

End WebhookReports.

(** A runner template with no target, checked by two checks that fail:
    three causes. *)
Lemma Validate_reports_three_failures :
  exists e,
    V1alpha1.Validate Samples.message Cases.failing Cases.failing Samples.noTarget
      = Some e /\
    Field.Field <$> Apierrors.Causes e =
      [V1alpha1.repositoryField; V1alpha1.claimTemplateField; V1alpha1.accountField].
Proof.
  destruct (V1alpha1.Validate Samples.message Cases.failing Cases.failing
              Samples.noTarget) as [e|] eqn:E; [|vm_compute in E; discriminate].
  exists e. split; [reflexivity|].
  destruct (Validate_reports_every_failure _ _ _ _ e E) as (H & _). exact H.
Defined.

Section TestHelperProperties.

Import TestHelpers.

Lemma append_inj_same_length (a b c d : string) :
  String.length a = String.length b -> a +:+ c = b +:+ d -> a = b /\ c = d.
Proof.
  revert b. induction a as [|x a IH]; intros [|y b] Hlen Heq; simpl in *;
    try discriminate.
  - tauto.
  - injection Hlen as Hlen. injection Heq as -> Heq.
    destruct (IH b Hlen Heq) as [-> ->]. tauto.
Qed.

(** X12.  Within a namespace different controllers get different names,
    and the controllers of two namespaces whose names have the same
    length (the test's are a fixed prefix and five letters) share a name
    only if they are the same controller of the same namespace. *)
Theorem controllerName_distinct ns1 ns2 name1 name2 :
  String.length ns1 = String.length ns2 ->
  controllerName ns1 name1 = controllerName ns2 name2 ->
  ns1 = ns2 /\ name1 = name2.
Proof. intros Hlen Heq. exact (append_inj_same_length _ _ _ _ Hlen Heq). Qed.

Lemma controllerName_in_test :
  NoDup (controllerName "testns-abcde" <$> controllers).
Proof.
  apply NoDup_fmap_2_strong; [|by apply (bool_decide_unpack _)].
  intros x y _ _ Heq.
  apply (controllerName_distinct "testns-abcde" "testns-abcde" x y eq_refl Heq).
Defined.

Section Polls.

Context {W : Type}.

(** X13.  The poll of the managed replicas answers a count other than -1
    exactly when there is one RunnerReplicaSet and only one, with that
    count as its replicas; with none or with several it answers -1, and
    with one whose replicas are not set it panics. *)
Theorem managedReplicasCount_one_set (items : list (V1alpha1.RunnerReplicaSet W)) (n : Z) :
  n <> -1 ->
  (managedReplicasCount items = V1alpha1.Returns n <->
   exists rs, items = [rs] /\ V1alpha1.Replicas (V1alpha1.Spec rs) = Some n) /\
  (length items <> 1%nat -> managedReplicasCount items = V1alpha1.Returns (-1)) /\
  (managedReplicasCount items = V1alpha1.Panics <->
   exists rs, items = [rs] /\ V1alpha1.Replicas (V1alpha1.Spec rs) = None).
Proof.
  intros Hn. unfold managedReplicasCount.
  destruct items as [|rs [|rs' items]]; simpl;
    repeat case_decide; try lia; try congruence.
  - split; [|split]; [split | reflexivity | split];
      first [ intros (? & ? & _); discriminate | congruence ].
  - destruct (V1alpha1.Replicas (V1alpha1.Spec rs)) as [m|] eqn:Hm;
      (split; [|split]); [split | congruence | split | split | congruence | split].
    + intros [= ->]. by exists rs.
    + intros (rs0 & [= <-] & Hm'). congruence.
    + discriminate.
    + intros (rs0 & [= <-] & Hm'). congruence.
    + discriminate.
    + intros (rs0 & [= <-] & Hm'). congruence.
    + intros _. by exists rs.
    + reflexivity.
  - split; [|split]; [split | reflexivity | split];
      first [ intros (? & ? & _); discriminate | congruence ].
Qed.

Section Counting.

Context {Client Pod : Type}.
Variable Get : Client -> string -> Client * option Pod.
Variable setRunning : Pod -> Pod.
Variable Patch : Client -> Pod -> Pod -> Client * bool.

Local Abbreviation poll := (runningCount Get setRunning Patch).
Local Abbreviation round := (simulatePodController Get setRunning Patch).

Lemma foldl_round_count (runners : list Runner) (n : Z) (c : Client) :
  fst (foldl round (n, c) runners) =
  n + Z.of_nat (length (filter Running runners)).
Proof.
  revert n c. induction runners as [|r runners IH]; intros n c; simpl.
  - lia.
  - rewrite filter_cons.
    destruct (decide (Running r)) as [Hr|Hr]; unfold Running in Hr.
    + rewrite decide_True by done. rewrite IH, length_cons. lia.
    + rewrite decide_False by done.
      destruct (Get c (runnerName r)) as [c' [pod|]]; by rewrite IH.
Qed.

Lemma foldl_round_running (runners : list Runner) (n : Z) (c : Client) :
  Forall Running runners ->
  foldl round (n, c) runners = (n + Z.of_nat (length runners), c).
Proof.
  intros Hall. revert n c.
  induction Hall as [|r runners Hr _ IH]; intros n c; simpl.
  - f_equal. lia.
  - unfold Running in Hr. rewrite decide_True by done. rewrite IH.
    f_equal. lia.
Qed.

Lemma filter_keeps_all (runners : list Runner) :
  length (filter Running runners) = length runners -> Forall Running runners.
Proof.
  induction runners as [|r runners IH]; [by constructor|].
  rewrite filter_cons. pose proof (length_filter Running runners).
  destruct (decide (Running r)) as [Hr|Hr]; simpl; intros Hl; [|lia].
  constructor; [done|]. apply IH. lia.
Qed.

(** X14.  The count the poll of the runners answers is the number of
    runners whose phase is Running, whatever the calls that fetch and
    patch the pods answer; it lies between 0 and the number of runners. *)
Theorem runningCount_counts_running (c : Client) (runners : list Runner) :
  fst (poll c runners) = Z.of_nat (length (filter Running runners)) /\
  0 <= fst (poll c runners) <= Z.of_nat (length runners).
Proof.
  unfold runningCount. rewrite foldl_round_count. split; [lia|].
  pose proof (length_filter Running runners). lia.
Qed.

(** X15.  The poll answers the number of all the runners exactly when
    every runner is Running, and a poll over runners that are all Running
    leaves the server as it was: no pod is fetched or patched. *)
Theorem runningCount_all_running (c : Client) (runners : list Runner) :
  (fst (poll c runners) = Z.of_nat (length runners) <-> Forall Running runners) /\
  (Forall Running runners -> snd (poll c runners) = c).
Proof.
  split.
  - unfold runningCount. rewrite foldl_round_count. split.
    + intros Hlen. apply filter_keeps_all. lia.
    + intros Hall.
      pose proof (foldl_round_count runners 0 c) as Hc.
      rewrite (foldl_round_running _ _ _ Hall) in Hc. simpl in Hc. lia.
  - intros Hall. unfold runningCount. by rewrite (foldl_round_running _ _ _ Hall).
Qed.

End Counting.

End Polls.

Lemma managedReplicasCount_of_one_set :
  managedReplicasCount [Samples.noTarget] = V1alpha1.Returns 1 /\
  managedReplicasCount [Samples.noTarget; Samples.noTarget] = V1alpha1.Returns (-1).
Proof.
  destruct (managedReplicasCount_one_set [Samples.noTarget] 1 ltac:(lia))
    as (Hone & _ & _).
  destruct (managedReplicasCount_one_set [Samples.noTarget; Samples.noTarget] 1
              ltac:(lia)) as (_ & Hmany & _).
  split; [apply Hone; by exists Samples.noTarget | apply Hmany; simpl; lia].
Defined.

Lemma runningCount_of_two_running :
  runningCount Cases.recordGet id Cases.recordPatch [] Cases.twoRunning = (2, []).
Proof.
  destruct (runningCount_all_running Cases.recordGet id Cases.recordPatch []
              Cases.twoRunning) as [Hcount Hserver].
  assert (Forall Running Cases.twoRunning) as Hall by (by repeat constructor).
  apply Hcount in Hall as Hc. apply Hserver in Hall as Hs.
  destruct (runningCount _ _ _ _ _) as [n c]. simpl in *. by subst.
Defined.

End TestHelperProperties.

Section HelmProperties.

Import Helm.

Lemma append_empty (s : string) : s +:+ "" = s.
Proof.
  induction s as [|a s IH]; [reflexivity|].
  change (String a s +:+ "") with (String a (s +:+ "")). by rewrite IH.
Qed.

Lemma empty_append (s : string) : "" +:+ s = s.
Proof. reflexivity. Qed.

Lemma runner_name_body :
  lookupTemplate "runner.name" (lex false helpers) =
  Some [Text ""; Tag true false (Pipeline runnerName); Text ""].
Proof. reflexivity. Qed.

Lemma runner_namespace_body :
  lookupTemplate "runner.namespace" (lex false helpers) =
  Some [Text ""; Tag true false (If namespaceEmpty); Text (lf +:+ "default");
        Tag true false Else; Text ""; Tag true false (Pipeline runnerNamespace);
        Text ""; Tag true false End; Text ""].
Proof. reflexivity. Qed.

Lemma include_runner_name dot :
  include "runner.name" dot = Some (runnerName dot).
Proof.
  unfold include. rewrite runner_name_body. simpl.
  by rewrite !empty_append, append_empty.
Qed.

Lemma include_runner_namespace dot :
  include "runner.namespace" dot =
  Some (if namespaceEmpty dot then lf +:+ "default" else runnerNamespace dot).
Proof.
  unfold include. rewrite runner_namespace_body. simpl.
  destruct (namespaceEmpty dot); simpl; rewrite !empty_append, ?append_empty;
    reflexivity.
Qed.


(** **** Slices of strings *)

Lemma append_cons (a : ascii) (s t : string) :
  String a s +:+ t = String a (s +:+ t).
Proof. reflexivity. Qed.

Lemma append_assoc (s t u : string) : (s +:+ t) +:+ u = s +:+ t +:+ u.
Proof.
  induction s as [|a s IH]; [reflexivity|]. by rewrite !append_cons, IH.
Qed.

Lemma length_append (s t : string) :
  String.length (s +:+ t) = (String.length s + String.length t)%nat.
Proof.
  induction s as [|a s IH]; [reflexivity|]. rewrite append_cons. simpl.
  by rewrite IH.
Qed.

Lemma substring_all (s : string) : String.substring 0 (String.length s) s = s.
Proof. induction s as [|a s IH]; [reflexivity|]. simpl. by rewrite IH. Qed.

Lemma substring_head (s t : string) :
  String.substring 0 (String.length s) (s +:+ t) = s.
Proof.
  induction s as [|a s IH]; [by destruct t|]. rewrite append_cons. simpl.
  by rewrite IH.
Qed.

Lemma substring_tail (s t : string) :
  String.substring (String.length s) (String.length t) (s +:+ t) = t.
Proof.
  induction s as [|a s IH]; [apply substring_all|]. by rewrite append_cons.
Qed.

(** A string is its first [n] bytes followed by the others. *)
Lemma substring_split (n : nat) (s : string) :
  (n <= String.length s)%nat ->
  s = String.substring 0 n s +:+ String.substring n (String.length s - n) s /\
  String.length (String.substring 0 n s) = n.
Proof.
  revert s. induction n as [|n IH]; intros s Hn.
  - rewrite Nat.sub_0_r, substring_all. by destruct s.
  - destruct s as [|a s]; simpl in Hn; [lia|].
    destruct (IH s ltac:(lia)) as [Hs Hl]. simpl. rewrite append_cons.
    split; [by rewrite <- Hs | by rewrite Hl].
Qed.

Lemma append_inv_tail (s t u : string) : s +:+ u = t +:+ u -> s = t.
Proof.
  intros Heq.
  assert (String.length s = String.length t) as Hlen.
  { apply (f_equal String.length) in Heq. rewrite !length_append in Heq. lia. }
  revert t Heq Hlen. induction s as [|a s IH]; intros [|b t] Heq Hlen;
    simpl in Hlen; try discriminate; [reflexivity|].
  rewrite !append_cons in Heq. injection Heq as -> Heq. f_equal.
  apply IH; [done | lia].
Qed.

Lemma HasSuffix_true (s suffix : string) :
  HasSuffix s suffix = true <-> exists t, s = t +:+ suffix.
Proof.
  unfold HasSuffix. split.
  - intros [Hlen Heq]%andb_true_iff. apply bool_decide_eq_true in Hlen.
    apply String.eqb_eq in Heq.
    destruct (substring_split (String.length s - String.length suffix) s ltac:(lia))
      as [Hs _].
    replace (String.length s - (String.length s - String.length suffix))%nat
      with (String.length suffix) in Hs by lia.
    rewrite Heq in Hs. eauto.
  - intros [t ->]. rewrite length_append. apply andb_true_iff. split.
    + apply bool_decide_eq_true. lia.
    + replace (String.length t + String.length suffix - String.length suffix)%nat
        with (String.length t) by lia.
      rewrite substring_tail. apply String.eqb_refl.
Qed.

Lemma trimSuffix_app (t suffix : string) : trimSuffix suffix (t +:+ suffix) = t.
Proof.
  unfold trimSuffix.
  rewrite (proj2 (HasSuffix_true (t +:+ suffix) suffix)) by eauto.
  rewrite length_append.
  replace (String.length t + String.length suffix - String.length suffix)%nat
    with (String.length t) by lia.
  apply substring_head.
Qed.

Lemma trimSuffix_other (s suffix : string) :
  HasSuffix s suffix = false -> trimSuffix suffix s = s.
Proof. unfold trimSuffix. by intros ->. Qed.

(** What is left is the string without its suffix, or all of it. *)
Lemma trimSuffix_cases (s suffix : string) :
  (exists t, s = t +:+ suffix /\ trimSuffix suffix s = t) \/
  (HasSuffix s suffix = false /\ trimSuffix suffix s = s).
Proof.
  destruct (HasSuffix s suffix) eqn:Hs.
  - apply HasSuffix_true in Hs as [t ->]. left. exists t.
    by rewrite trimSuffix_app.
  - right. by rewrite trimSuffix_other.
Qed.

Lemma trunc_prefix (c : nat) (s : string) :
  (exists rest, s = trunc c s +:+ rest) /\
  String.length (trunc c s) = Nat.min c (String.length s).
Proof.
  unfold trunc. case_bool_decide as Hc.
  - destruct (substring_split c s ltac:(lia)) as [Hs Hl]. split; [eauto | lia].
  - split; [exists ""; by rewrite append_empty | lia].
Qed.

Lemma trimSuffix_prefix (suffix s : string) :
  (exists rest, s = trimSuffix suffix s +:+ rest) /\
  (String.length (trimSuffix suffix s) <= String.length s)%nat.
Proof.
  destruct (trimSuffix_cases s suffix) as [(t & Hs & ->)|[_ ->]].
  - split; [eauto | rewrite Hs, length_append; lia].
  - split; [exists ""; by rewrite append_empty | lia].
Qed.

(** The two functions after one another, as both templates apply them. *)
Lemma trimSuffix_trunc (c : nat) (suffix s : string) :
  let r := trimSuffix suffix (trunc c s) in
  (String.length r <= c)%nat /\ (exists rest, s = r +:+ rest) /\
  ((String.length s <= c)%nat -> HasSuffix s suffix = false -> r = s).
Proof.
  intros r. subst r.
  destruct (trunc_prefix c s) as [[rest1 H1] Hl1].
  destruct (trimSuffix_prefix suffix (trunc c s)) as [[rest2 H2] Hl2].
  split; [lia|]. split.
  - exists (rest2 +:+ rest1). by rewrite <- append_assoc, <- H2.
  - intros Hlen Hsuf. unfold trunc. rewrite bool_decide_eq_false_2 by lia.
    by apply trimSuffix_other.
Qed.

Lemma trimSuffix_dash (s : string) :
  HasSuffix (trimSuffix "-" s) "-" = true <-> HasSuffix s "--" = true.
Proof.
  rewrite !HasSuffix_true. split.
  - intros [t Ht]. destruct (trimSuffix_cases s "-") as [(u & Hs & Hu)|[Hn Hu]].
    + exists t. rewrite Hs, <- Hu, Ht. by rewrite append_assoc.
    + rewrite Hu in Ht. assert (HasSuffix s "-" = true) as Hy
        by (apply HasSuffix_true; eauto). congruence.
  - intros [t ->]. exists t.
    change "--" with ("-" +:+ "-"). by rewrite <- append_assoc, trimSuffix_app.
Qed.

Lemma trimSuffix_empty (s : string) :
  trimSuffix "-" s = "" <-> s = "" \/ s = "-".
Proof.
  split.
  - destruct (trimSuffix_cases s "-") as [(u & Hs & ->)|[_ ->]].
    + intros ->. by right.
    + by left.
  - intros [->| ->]; reflexivity.
Qed.


Lemma prefix_append (s rest : string) : String.prefix s (s +:+ rest) = true.
Proof. apply String.prefix_correct, substring_head. Qed.

Lemma trunc_short (c : nat) (s : string) :
  (String.length (trunc c s) < c)%nat -> trunc c s = s.
Proof.
  intros Hlen. destruct (trunc_prefix c s) as [_ Hl].
  unfold trunc. rewrite bool_decide_eq_false_2; [done | lia].
Qed.

(** X16.  The template [runner.name] renders the runner's name of the
    values, or the chart's name when the values give none or an empty one:
    its first bytes, 63 at most, and nothing around them. *)
Theorem runner_name_within_63_bytes (dot : Dot) :
  exists s, include "runner.name" dot = Some s /\
    (String.length s <= 63)%nat /\
    String.prefix s (default (Chart_Name dot) (Values_runner_name dot)) = true /\
    (Values_runner_name dot = None \/ Values_runner_name dot = Some "" ->
       String.prefix s (Chart_Name dot) = true).
Proof.
  exists (runnerName dot). split; [apply include_runner_name|].
  destruct (trimSuffix_trunc 63 "-" (default (Chart_Name dot) (Values_runner_name dot)))
    as (Hlen & [rest Hrest] & _).
  fold (runnerName dot) in Hlen, Hrest.
  pose proof (prefix_append (runnerName dot) rest) as Hp.
  rewrite <- Hrest in Hp.
  split; [done|]. split; [done|].
  intros [Hn|Hn]; rewrite Hn in Hp; exact Hp.
Qed.

Lemma runner_name_of_the_chart :
  exists s, include "runner.name" Cases.noValues = Some s /\
    String.prefix s "runner" = true.
Proof.
  destruct (runner_name_within_63_bytes Cases.noValues) as (s & Hs & _ & _ & Hp).
  exists s. split; [exact Hs | apply Hp; left; reflexivity].
Defined.

(** X17.  A name of 63 bytes at most that does not end in a dash is
    rendered as it is. *)
Theorem runner_name_unchanged (dot : Dot) :
  let name := default (Chart_Name dot) (Values_runner_name dot) in
  (String.length name <= 63)%nat ->
  HasSuffix name "-" = false ->
  include "runner.name" dot = Some name.
Proof.
  intros name Hlen Hsuf. rewrite include_runner_name. f_equal.
  by apply (trimSuffix_trunc 63 "-" name).
Qed.

Lemma runner_name_unchanged_for_the_chart :
  include "runner.name" Cases.noValues = Some "runner".
Proof.
  apply (runner_name_unchanged Cases.noValues); [vm_compute; lia | reflexivity].
Defined.

(** X18.  The template [runner.namespace] renders an empty namespace as
    a line feed followed by [default], eight bytes and not the seven of
    the name of the namespace: the line break after the [if] is not
    trimmed.  Any other namespace is rendered as its first bytes, 63 at
    most, and nothing around them. *)
Theorem runner_namespace_rendered (dot : Dot) :
  (Values_runner_namespace dot = "" ->
     include "runner.namespace" dot = Some (String (ascii_of_nat 10) "default")) /\
  (Values_runner_namespace dot <> "" ->
     exists s, include "runner.namespace" dot = Some s /\
       (String.length s <= 63)%nat /\
       String.prefix s (Values_runner_namespace dot) = true).
Proof.
  rewrite include_runner_namespace. unfold namespaceEmpty. split; intros Hns.
  - by rewrite bool_decide_eq_true_2.
  - rewrite bool_decide_eq_false_2 by done.
    exists (runnerNamespace dot). split; [done|].
    destruct (trimSuffix_trunc 63 "-" (Values_runner_namespace dot))
      as (Hlen & [rest Hrest] & _).
    fold (runnerNamespace dot) in Hlen, Hrest.
    pose proof (prefix_append (runnerNamespace dot) rest) as Hp.
    rewrite <- Hrest in Hp. done.
Qed.

Lemma runner_namespace_of_no_values :
  include "runner.namespace" Cases.noValues <> Some "default" /\
  exists s, include "runner.namespace" Cases.twoDashes = Some s /\
    String.prefix s "actions" = true.
Proof.
  split.
  - rewrite (proj1 (runner_namespace_rendered Cases.noValues) eq_refl).
    discriminate.
  - destruct (proj2 (runner_namespace_rendered Cases.twoDashes)) as (s & Hs & _ & Hp);
      [discriminate|].
    exists s. split; [exact Hs | exact Hp].
Defined.

(** X19.  Only one dash is trimmed: the rendered name of the runner ends
    in a dash exactly when the first 63 bytes of the name end in two. *)
Theorem runner_name_trailing_dash (dot : Dot) :
  exists s, include "runner.name" dot = Some s /\
    (HasSuffix s "-" = true <->
     HasSuffix (trunc 63 (default (Chart_Name dot) (Values_runner_name dot))) "--" = true).
Proof.
  exists (runnerName dot). split; [apply include_runner_name|].
  apply trimSuffix_dash.
Qed.

Lemma runner_name_with_two_dashes :
  exists s, include "runner.name" Cases.twoDashes = Some s /\ HasSuffix s "-" = true.
Proof.
  destruct (runner_name_trailing_dash Cases.twoDashes) as (s & Hs & Hdash).
  exists s. split; [exact Hs | apply Hdash; reflexivity].
Defined.

(** X20.  The rendered name of the runner is empty exactly when the name
    is empty or is one dash. *)
Theorem runner_name_empty (dot : Dot) :
  include "runner.name" dot = Some "" <->
  default (Chart_Name dot) (Values_runner_name dot) = "" \/
  default (Chart_Name dot) (Values_runner_name dot) = "-".
Proof.
  rewrite include_runner_name. unfold runnerName.
  set (name := default (Chart_Name dot) (Values_runner_name dot)).
  split.
  - intros [= Hempty]. apply trimSuffix_empty in Hempty.
    rewrite <- (trunc_short 63 name); [done|].
    destruct Hempty as [-> | ->]; simpl; lia.
  - intros [-> | ->]; reflexivity.
Qed.

End HelmProperties.
